(** * CalgaryRiverBot: a shallow embedding of [main.py]

    The bot fetches river-gauge readings, shapes them per station
    ([pull_station]), classifies the Elbow flow ([status_symbol]), renders a
    text summary ([gen_tweet_str]) and publishes it with two charts
    ([tweet_general_update]).

    Part I embeds the data model and the functions; Part II states and proves
    the properties.

    Modelling conventions.
    - A Python/numpy float is an IEEE-754 binary64 value, here [spec_float]
      with precision 53 and maximal exponent 1024; arithmetic is the
      correctly rounded arithmetic of [SpecFloat].
    - A number in a row handed to [gen_tweet_str] keeps its type
      ([number]): a [numpy.float64], a [numpy.int64] or a Python [float]
      are rounded and printed differently.
    - A Python [dict] whose iteration order matters is an association list in
      insertion order ([dict_literal]); a [dict] used only for lookup and
      membership is a [gmap].
    - A pandas [DataFrame] is the list of its rows; data frames live in a
      store indexed by references, so that aliasing between the caller's
      table and the tables built by [pull_station] is explicit.
    - Calls that leave the process (the HTTP read, the Twitter API) are
      oracles; what they are asked is recorded, what they answer is a
      parameter. *)

From Stdlib Require Import ZArith Floats.SpecFloat.
From stdpp Require Import gmap strings list pretty.

Local Open Scope string_scope.
Local Open Scope Z_scope.

(* ===================================================================== *)
(** * Part I: the embedding *)
(* ===================================================================== *)

(** ** binary64 floats *)

Definition float64 : Type := spec_float.

Definition prec : Z := 53.
Definition emax : Z := 1024.

Definition nan : float64 := S754_nan.

(** [float(z)] for a Python [int]; exact for the integers used here. *)
Definition float_of_int (z : Z) : float64 := binary_normalize prec emax z 0 false.

Definition fmul (x y : float64) : float64 := SFmul prec emax x y.
Definition fdiv (x y : float64) : float64 := SFdiv prec emax x y.
Definition fadd (x y : float64) : float64 := SFadd prec emax x y.

(** [x < y], [x <= y] and [x == y]; each is [False] as soon as one side is NaN. *)
Definition flt (x y : float64) : bool := SFltb x y.
Definition fle (x y : float64) : bool := SFleb x y.
Definition feq (x y : float64) : bool := SFeqb x y.

(** [np.isnan] *)
Definition isnan (x : float64) : bool :=
  match x with S754_nan => true | _ => false end.

(** The decimal literal [n / 10^k] (for instance [12.345] is [decimal 12345 3]):
    the binary64 value nearest to it.  The quotient of two exactly
    representable integers is correctly rounded by [fdiv]. *)
Definition decimal (n : Z) (k : Z) : float64 :=
  fdiv (float_of_int n) (float_of_int (10 ^ k)).

(** [np.rint]: the nearest integer, ties to even; the sign is kept. *)
Definition rint (x : float64) : float64 :=
  match x with
  | S754_finite s m e =>
      if 0 <=? e then x
      else
        let d := 2 ^ (- e) in
        let q := Z.pos m / d in
        let r := Z.pos m mod d in
        let n := match 2 * r ?= d with
                 | Lt => q
                 | Gt => q + 1
                 | Eq => if Z.even q then q else q + 1
                 end in
        match n with
        | Z.pos p => binary_round prec emax s p 0
        | _ => S754_zero s
        end
  | _ => x
  end.

(** [round(x, decimals)] for a [numpy.float64] [x].  The builtin [round]
    calls [x.__round__(decimals)], which is numpy's [round]: for
    [decimals = 0] it is [rint]; for positive [decimals] it is
    [rint(x * 10**decimals) / 10**decimals], and for negative ones
    [rint(x / 10**-decimals) * 10**-decimals].  The result is again a
    float: [round(x, 0)] is not an integer. *)
Definition round (x : float64) (decimals : Z) : float64 :=
  if decimals =? 0 then rint x
  else if 0 <? decimals
       then fdiv (rint (fmul x (float_of_int (10 ^ decimals)))) (float_of_int (10 ^ decimals))
       else fmul (rint (fdiv x (float_of_int (10 ^ (- decimals))))) (float_of_int (10 ^ (- decimals))).

(** The binary64 value nearest to the fraction [n / d] of two positive
    integers of any size, ties to even. *)
Definition ratio (s : bool) (n d : positive) : float64 :=
  let '(q, e, l) := SFdiv_core_binary prec emax (Z.pos n) 0 (Z.pos d) 0 in
  binary_round_aux prec emax s q e l.

(** [round(x, ndigits)] for a Python [float] [x] and [ndigits >= 0]:
    [float.__round__] takes the decimal with [ndigits] places nearest to the
    exact value of [x] (a tie goes to the even last digit) and returns the
    float nearest to that decimal.  A float without fractional bits, an
    infinity and NaN are returned as they are. *)
Definition py_round (x : float64) (ndigits : nat) : float64 :=
  match x with
  | S754_finite s m e =>
      if 0 <=? e then x
      else
        let p := 10 ^ Z.of_nat ndigits in
        let d := 2 ^ (- e) in
        let q := (Z.pos m * p) / d in
        let r := (Z.pos m * p) mod d in
        let n := match 2 * r ?= d with
                 | Lt => q
                 | Gt => q + 1
                 | Eq => if Z.even q then q else q + 1
                 end in
        match n, p with
        | Z.pos n', Z.pos p' => ratio s n' p'
        | _, _ => S754_zero s
        end
  | _ => x
  end.

(** ** Rendering a float: [str(x)], as an f-string field [{x}] does

    Python prints the shortest decimal that reads back as the same binary64
    value, the closest one to the value among the shortest.  The value is
    [m * 2^e]; with [u = 2^(e-2)] it is [4m * u] and the decimals that read
    back as it are those between [lo * u] and [hi * u], bounds included
    when [m] is even. *)

Record interval := {
  iv_lo : Z;  iv_mid : Z;  iv_hi : Z;   (* in units of [iv_un / iv_ud] *)
  iv_un : Z;  iv_ud : Z;
  iv_closed : bool
}.

Definition float_interval (m : positive) (e : Z) : interval :=
  let boundary := (Z.pos m =? 2 ^ (prec - 1)) && (3 - emax - prec <? e) in
  {| iv_lo := 4 * Z.pos m - (if boundary then 1 else 2);
     iv_mid := 4 * Z.pos m;
     iv_hi := 4 * Z.pos m + 2;
     iv_un := 2 ^ Z.max (e - 2) 0;
     iv_ud := 2 ^ Z.max (2 - e) 0;
     iv_closed := Z.even (Z.pos m) |}.

(** Number of decimal digits of a positive integer. *)
Definition ndigits (n : Z) : Z := Z.of_nat (String.length (pretty n)).

(** The decimal exponent [p] of the value: [10^(p-1) <= value < 10^p]. *)
Fixpoint small_exponent (fuel : nat) (a b : Z) (p : Z) : Z :=
  match fuel with
  | O => p
  | S fuel' => if b <=? a then p else small_exponent fuel' (10 * a) b (p - 1)
  end.

Definition decimal_exponent (iv : interval) : Z :=
  let a := iv_mid iv * iv_un iv in
  let b := iv_ud iv in
  if b <=? a then ndigits (a / b) else small_exponent 400 (10 * a) b 0.

(** The candidates with last digit at [10^q]: the value scaled by [10^-q] is
    [x * sn / sd] for [x] in units of the interval. *)
Definition within (iv : interval) (sn sd n : Z) : bool :=
  if iv_closed iv
  then (iv_lo iv * sn <=? n * sd) && (n * sd <=? iv_hi iv * sn)
  else (iv_lo iv * sn <? n * sd) && (n * sd <? iv_hi iv * sn).

Definition candidate (iv : interval) (q : Z) : option Z :=
  let sn := if 0 <=? q then iv_un iv else iv_un iv * 10 ^ (- q) in
  let sd := if 0 <=? q then iv_ud iv * 10 ^ q else iv_ud iv in
  let below := (iv_mid iv * sn) / sd in
  let above := below + 1 in
  match within iv sn sd below, within iv sn sd above with
  | true, true =>
      match 2 * (iv_mid iv * sn - below * sd) ?= sd with
      | Lt => Some below
      | Gt => Some above
      | Eq => Some (if Z.even below then below else above)
      end
  | true, false => Some below
  | false, true => Some above
  | false, false => None
  end.

(** Try 1, 2, ... significant digits; 17 always suffice. *)
Fixpoint shortest (fuel : nat) (iv : interval) (p : Z) (k : Z) : Z * Z :=
  match fuel with
  | O => (iv_mid iv * iv_un iv / iv_ud iv, 0)
  | S fuel' =>
      match candidate iv (p - k) with
      | Some n => (n, p - k)
      | None => shortest fuel' iv p (k + 1)
      end
  end.

Fixpoint strip_zeros (fuel : nat) (n q : Z) : Z * Z :=
  match fuel with
  | O => (n, q)
  | S fuel' => if (0 <? n) && (n mod 10 =? 0) then strip_zeros fuel' (n / 10) (q + 1) else (n, q)
  end.

(** The digits and the position of the decimal point: the value is
    [0.d1d2...dk * 10^decpt]. *)
Definition float_digits (m : positive) (e : Z) : string * Z :=
  let iv := float_interval m e in
  let '(n, q) := shortest 17 iv (decimal_exponent iv) 1 in
  let '(n, q) := strip_zeros 20 n q in
  (pretty n, ndigits n + q).

Definition zeros (n : Z) : string := String.concat "" (replicate (Z.to_nat n) "0").

Definition pad2 (n : Z) : string := if n <? 10 then "0" +:+ pretty n else pretty n.

(** Fixed notation for [-4 < decpt <= 16] (with at least [.0]), exponent
    notation otherwise (with at least two exponent digits). *)
Definition float_layout (ds : string) (decpt : Z) : string :=
  let k := Z.of_nat (String.length ds) in
  if (-4 <? decpt) && (decpt <=? 16) then
    if decpt <=? 0 then "0." +:+ zeros (- decpt) +:+ ds
    else if decpt <? k
         then String.substring 0 (Z.to_nat decpt) ds +:+ "." +:+ String.substring (Z.to_nat decpt) (Z.to_nat (k - decpt)) ds
         else ds +:+ zeros (decpt - k) +:+ ".0"
  else
    String.substring 0 1 ds
      +:+ (if 1 <? k then "." +:+ String.substring 1 (Z.to_nat (k - 1)) ds else "")
      +:+ "e" +:+ (if decpt - 1 <? 0 then "-" else "+") +:+ pad2 (Z.abs (decpt - 1)).

Definition float_str (x : float64) : string :=
  match x with
  | S754_nan => "nan"
  | S754_infinity s => if s then "-inf" else "inf"
  | S754_zero s => if s then "-0.0" else "0.0"
  | S754_finite s m e =>
      let '(ds, decpt) := float_digits m e in
      (if s then "-" else "") +:+ float_layout ds decpt
  end.

(** ** Timestamps

    A pandas [Timestamp] is a count of nanoseconds since 1970-01-01T00:00;
    the calendar fields are derived from it (proleptic Gregorian calendar). *)

Definition Timestamp : Type := Z.

Definition ns_per_second : Z := 1000000000.
Definition ns_per_day : Z := 86400 * ns_per_second.

(** The calendar day a timestamp falls on, as days since the epoch. *)
Definition day_of (t : Timestamp) : Z := t / ns_per_day.

(** Year, month and day of month of a day number. *)
Definition civil_of_days (days : Z) : Z * Z * Z :=
  let z := days + 719468 in
  let era := z / 146097 in
  let doe := z - era * 146097 in
  let yoe := (doe - doe / 1460 + doe / 36524 - doe / 146096) / 365 in
  let doy := doe - (365 * yoe + yoe / 4 - yoe / 100) in
  let mp := (5 * doy + 2) / 153 in
  let d := doy - (153 * mp + 2) / 5 + 1 in
  let m := if mp <? 10 then mp + 3 else mp - 9 in
  let y := yoe + era * 400 + (if m <=? 2 then 1 else 0) in
  (y, m, d).

Definition hour_of (t : Timestamp) : Z := (t mod ns_per_day) / (3600 * ns_per_second).
Definition minute_of (t : Timestamp) : Z := (t mod (3600 * ns_per_second)) / (60 * ns_per_second).

Definition newline : string := String (Ascii.ascii_of_nat 10) "".

(** [t.strftime("%m/%d/%Y %H:%M %p")]: the hour is the 24-hour one. *)
Definition strftime (t : Timestamp) : string :=
  let '(y, m, d) := civil_of_days (day_of t) in
  pad2 m +:+ "/" +:+ pad2 d +:+ "/" +:+ pretty y +:+ " "
    +:+ pad2 (hour_of t) +:+ ":" +:+ pad2 (minute_of t) +:+ " "
    +:+ (if hour_of t <? 12 then "AM" else "PM").

(** ** Dictionaries in insertion order

    [d[k] = v] replaces the value of a key that is present, where it stands,
    and appends a new key; a dictionary display [{k1: v1, k2: v2, ...}]
    performs these assignments from left to right. *)

Fixpoint dict_set {K V : Type} `{EqDecision K} (d : list (K * V)) (k : K) (v : V) : list (K * V) :=
  match d with
  | [] => [(k, v)]
  | (k', v') :: d' => if decide (k = k') then (k', v) :: d' else (k', v') :: dict_set d' k v
  end.

Fixpoint dict_get {K V : Type} `{EqDecision K} (d : list (K * V)) (k : K) : option V :=
  match d with
  | [] => None
  | (k', v') :: d' => if decide (k = k') then Some v' else dict_get d' k
  end.

Definition dict_literal {K V : Type} `{EqDecision K} (items : list (K * V)) : list (K * V) :=
  fold_left (fun d kv => dict_set d kv.1 kv.2) items [].

(** ** Configuration *)

Definition RIVER_DATA_API_URL : string := "https://data.calgary.ca/resource/5fdg-ifgr.json".

Definition MARKERS : gmap string string :=
  {[ "Safe" := "🟢"; "Warn" := "🟡"; "Danger" := "🔴" ]}.

Definition MARKER_LEVELS : gmap string (gmap string (list (Z * string))) :=
  {[ "05BJ001" :=
       {[ "flow" := dict_literal [ (20, MARKERS !!! "Safe");
                                   (35, MARKERS !!! "Warn");
                                   (50, MARKERS !!! "Danger") ] ]} ]}.

Definition STATIONS : gmap string string :=
  {[ "05BH004" := "Bow River at Calgary";
     "05BJ001" := "Elbow River below Glenmore Dam";
     "05BJ008" := "Glenmore Reservoir at Calgary";
     "05BH005" := "Bow River near Cochrane";
     "05BJ004" := "Elbow River at Bragg Creek" ]}.

Inductive aggfunc := np_mean | np_min | np_max.

Definition AGGREGATE_COLUMNS : list (string * aggfunc) :=
  dict_literal [ ("level", np_mean);
                 ("level_min", np_min);
                 ("level_max", np_max);
                 ("flow", np_mean);
                 ("flow", np_min);
                 ("flow", np_max) ].

(** ** Readings

    One row of the table: the index label [name] (the timestamp) and the
    columns.  The feed delivers [level] and [flow] as JSON values of any
    kind ([cell]); after coercion they are floats.  [extra] holds every
    other column by name. *)

Inductive cell :=
| Num (x : float64)
| Str (s : string)
| Null.

Record Reading (C : Type) := mkReading {
  name : Timestamp;
  station_number : string;
  station_name : string;
  level : C;
  flow : C;
  extra : list (string * cell)
}.
Arguments mkReading {C}.
Arguments name {C}.
Arguments station_number {C}.
Arguments station_name {C}.
Arguments level {C}.
Arguments flow {C}.
Arguments extra {C}.

(** ** StatusClassifier: [status_symbol] *)

(** The [for key, value in ....items()] loop with its early [return]. *)
Fixpoint first_below (flow : float64) (items : list (Z * string)) : option string :=
  match items with
  | [] => None
  | (key, value) :: items' =>
      if flt flow (float_of_int key) then Some value else first_below flow items'
  end.

Definition status_symbol (station_number : string) (flow : float64) : string :=
  match MARKER_LEVELS !! station_number with
  | Some levels =>
      match first_below flow (levels !!! "flow") with
      | Some value => value
      | None => MARKERS !!! "Danger"
      end
  | None => ""
  end.

(** ** The numbers of a row

    A value in a row keeps the type its column has, or the type the caller
    gave it: a [numpy.float64] when the column is of dtype float64, a
    [numpy.int64] when pandas stored the column as integers (a column all of
    whose values are whole numbers), a Python [float] in a row written by
    hand.  [np.isnan], [round], [<] and [str] depend on that type.  (A
    Python [int] in the range of int64 behaves in all four as the
    [numpy.int64] of the same value.) *)

Inductive number :=
| np_float64 (x : float64)
| np_int64 (z : Z)
| py_float (x : float64).

(** [np.isnan(v)]: an integer is never NaN. *)
Definition number_isnan (v : number) : bool :=
  match v with
  | np_float64 x | py_float x => isnan x
  | np_int64 _ => false
  end.

(** [round(v, ndigits)] with [ndigits >= 0], through the [__round__] of the
    type of [v]: numpy's for a [numpy.float64], Python's for a [float]; an
    integer is returned unchanged.  The result has the type of [v]. *)
Definition number_round (v : number) (ndigits : nat) : number :=
  match v with
  | np_float64 x => np_float64 (round x (Z.of_nat ndigits))
  | np_int64 z => np_int64 z
  | py_float x => py_float (py_round x ndigits)
  end.

(** [str(v)], as an f-string field [{v}] prints it: an integer has no
    fractional part, a float of either kind always has one. *)
Definition number_str (v : number) : string :=
  match v with
  | np_float64 x | py_float x => float_str x
  | np_int64 z => pretty z
  end.

(** [v < key] for an [int] [key]. *)
Definition number_lt (v : number) (key : Z) : bool :=
  match v with
  | np_float64 x | py_float x => flt x (float_of_int key)
  | np_int64 z => z <? key
  end.

(** [float(v)] *)
Definition number_float (v : number) : float64 :=
  match v with
  | np_float64 x | py_float x => x
  | np_int64 z => float_of_int z
  end.

(** [status_symbol] on a flow of any of these types: the same loop, with
    the comparison of that type.  On a float it is [status_symbol] (lemma
    [status_symbol_number_float]). *)
Fixpoint first_below_number (flow : number) (items : list (Z * string)) : option string :=
  match items with
  | [] => None
  | (key, value) :: items' =>
      if number_lt flow key then Some value else first_below_number flow items'
  end.

Definition status_symbol_number (station_number : string) (flow : number) : string :=
  match MARKER_LEVELS !! station_number with
  | Some levels =>
      match first_below_number flow (levels !!! "flow") with
      | Some value => value
      | None => MARKERS !!! "Danger"
      end
  | None => ""
  end.

(** ** SummaryFormatter: [gen_tweet_str]

    Each argument is one row: [main] passes the first row of a shaped table
    ([df.iloc[0]]), a test may pass a row written by hand.  [round] and the
    f-string field act on the value as its type has it. *)

Definition gen_tweet_str (bow elbow glenmore bow_c : Reading number) : string :=
  "River Stats " +:+ strftime (name bow) +:+ newline
  +:+ "Bow Cochrane: "
      +:+ (if negb (number_isnan (flow bow_c)) then number_str (number_round (flow bow_c) 2) else "N/A")
      +:+ " m3/min, " +:+ number_str (number_round (level bow_c) 2) +:+ " m" +:+ newline
  +:+ "Bow YYC: "
      +:+ (if negb (number_isnan (flow bow)) then number_str (number_round (flow bow) 2) else "N/A")
      +:+ " m3/min, " +:+ number_str (number_round (level bow) 2) +:+ " m" +:+ newline
  +:+ "Elbow YYC: " +:+ status_symbol_number (station_number elbow) (flow elbow) +:+ ": "
      +:+ (if negb (number_isnan (flow elbow)) then number_str (number_round (flow elbow) 2) else "N/A")
      +:+ " m3/min, " +:+ number_str (number_round (level elbow) 2) +:+ " m" +:+ newline
  +:+ "Glenmore Resevoir: " +:+ number_str (number_round (level glenmore) 0) +:+ " m" +:+ newline.

(** A row of a table whose [level] and [flow] are of dtype float64, and the
    same row written with Python floats. *)
Definition np_row (r : Reading float64) : Reading number :=
  mkReading (name r) (station_number r) (station_name r)
            (np_float64 (level r)) (np_float64 (flow r)) (extra r).

Definition py_row (r : Reading float64) : Reading number :=
  mkReading (name r) (station_number r) (station_name r)
            (py_float (level r)) (py_float (flow r)) (extra r).


(** ** Effects: state and exceptions

    A computation runs on a state, returns a value or raises, and leaves a
    state behind.  A raised exception skips the rest of the computation
    ([main.py] has no [try]). *)

Inductive exn :=
| KeyError (key : string)
| HTTPError
| TweepError.

Inductive outcome (A : Type) :=
| Ret (a : A)
| Raise (e : exn).
Arguments Ret {A}.
Arguments Raise {A}.

Definition M (S A : Type) : Type := S -> outcome A * S.

#[export] Instance M_ret {S} : MRet (M S) := fun A a s => (Ret a, s).

#[export] Instance M_bind {S} : MBind (M S) := fun A B k m s =>
  match m s with
  | (Ret a, s') => k a s'
  | (Raise e, s') => (Raise e, s')
  end.

Definition raise {S A} (e : exn) : M S A := fun s => (Raise e, s).

(** ** The store of data frames *)

Inductive DataFrame :=
| Raw (rows : list (Reading cell))          (* as read: [level], [flow] of dtype object *)
| Numeric (rows : list (Reading float64))   (* [level], [flow] of dtype float64 *)
| Daily (rows : list (Timestamp * list (string * float64))). (* one row per day, aggregated columns *)

Abbreviation ref := positive (only parsing).
Abbreviation store := (gmap positive DataFrame) (only parsing).

(** A new object gets a reference no live object has. *)
Definition alloc (d : DataFrame) : M store ref := fun s =>
  let r := fresh (dom s) in (Ret r, <[r := d]> s).

Definition load (r : ref) : M store DataFrame := fun s =>
  match s !! r with
  | Some d => (Ret d, s)
  | None => (Raise (KeyError "dangling reference"), s)
  end.

(** In-place update of the object behind [r]. *)
Definition write (r : ref) (d : DataFrame) : M store unit := fun s =>
  (Ret tt, <[r := d]> s).

(** Every object of [s] is still there, unchanged, in [s']. *)
Definition extends (s s' : store) : Prop :=
  forall (r : ref) (d : DataFrame), s !! r = Some d -> s' !! r = Some d.

(** What [pull_station] returns: [False] or a data frame. *)
Inductive pyvalue :=
| PyFalse
| PyFrame (r : ref).

(** ** Daily aggregation *)

Definition fmin (x y : float64) : float64 := if flt y x then y else x.
Definition fmax (x y : float64) : float64 := if flt x y then y else x.

(** A pandas reduction skips missing values; with nothing left the result
    is missing.  The mean is written as the sum from left to right divided
    by the count, and of equal extreme values the first is kept: the order
    in which pandas adds up and the sign it gives a zero are not fixed by
    [main.py], and no statement below depends on them beyond the values of
    the sample tables, where every sum is exact. *)
Definition reduce (f : aggfunc) (xs : list float64) : float64 :=
  match filter (fun x => isnan x = false) xs with
  | [] => nan
  | v :: vs =>
      match f with
      | np_mean => fdiv (fold_left fadd (v :: vs) (S754_zero false))
                        (float_of_int (Z.of_nat (length (v :: vs))))
      | np_min => fold_left fmin vs v
      | np_max => fold_left fmax vs v
      end
  end.

(** [.fillna(0)] *)
Definition fillna0 (x : float64) : float64 := if isnan x then S754_zero false else x.

(** The float in column [c] of a row, if the row has such a column and it
    holds a number. *)
Definition column (c : string) (r : Reading float64) : option float64 :=
  if decide (c = "level") then Some (level r)
  else if decide (c = "flow") then Some (flow r)
  else match dict_get (extra r) c with
       | Some (Num x) => Some x
       | _ => None
       end.

(** [.resample("1D")]: one bin per calendar day from the first day that has
    a row to the last one, each with the rows of that day. *)
Definition resample_1D (rows : list (Reading float64)) : list (Timestamp * list (Reading float64)) :=
  match name <$> rows with
  | [] => []
  | t :: ts =>
      let first := day_of (fold_left Z.min ts t) in
      let last := day_of (fold_left Z.max ts t) in
      (fun d => (d * ns_per_day, filter (fun r => day_of (name r) = d) rows))
        <$> seqZ first (last - first + 1)
  end.

(** [.agg(spec)]: for each [column: function] of [spec], in order, the
    function applied to that column of the bin. *)
Definition agg (spec : list (string * aggfunc)) (bin : list (Reading float64))
  : option (list (string * float64)) :=
  mapM (M := option)
       (fun cf : string * aggfunc =>
          (fun xs : list float64 => (cf.1, reduce cf.2 xs)) <$> mapM (M := option) (column cf.1) bin)
       spec.

Definition resample_agg_fillna (spec : list (string * aggfunc)) (rows : list (Reading float64))
  : option (list (Timestamp * list (string * float64))) :=
  mapM (M := option)
       (fun bin : Timestamp * list (Reading float64) =>
          (fun cols : list (string * float64) => (bin.1, prod_map id fillna0 <$> cols))
            <$> agg spec bin.2)
       (resample_1D rows).

(** The aggregated columns of one day, spelled out: what [agg] yields on
    rows that carry the placeholder columns (lemma [agg_placeholders]). *)
Definition daily_columns (bin : list (Reading float64)) : list (string * float64) :=
  [ ("level", reduce np_mean (level <$> bin));
    ("level_min", reduce np_min (level <$> bin));
    ("level_max", reduce np_max (level <$> bin));
    ("flow", reduce np_max (flow <$> bin)) ].



(** [df["level_min"], df["level_max"] = df["level"], df["level"]] and the
    same for [flow], on one row. *)
Definition add_placeholders (r : Reading float64) : Reading float64 :=
  let e1 := dict_set (dict_set (extra r) "level_min" (Num (level r))) "level_max" (Num (level r)) in
  let e2 := dict_set (dict_set e1 "flow_min" (Num (flow r))) "flow_max" (Num (flow r)) in
  mkReading (name r) (station_number r) (station_name r) (level r) (flow r) e2.

(** ** ReadingShaper: [pull_station] *)

(** [table[table["station_number"] == station]]: the rows of the station, as
    a new list. *)
Definition select_station {C : Type} (station : string) (rows : list (Reading C)) : list (Reading C) :=
  filter (fun r => station_number r = station) rows.

Section Shaper.

(** [pd.to_numeric] on a string: the number it denotes, if pandas can
    parse it. *)
Variable str_to_float : string -> option float64.

(** [pd.read_json(url).set_index("timestamp")]: the rows served for the
    URL, or nothing when the request or the parsing fails. *)
Variable read_json : string -> option (list (Reading cell)).

(** [pd.to_numeric(..., errors="coerce")] on one value. *)
Definition to_numeric (c : cell) : float64 :=
  match c with
  | Num x => x
  | Str s => default nan (str_to_float s)
  | Null => nan
  end.

Definition coerce (r : Reading cell) : Reading float64 :=
  mkReading (name r) (station_number r) (station_name r)
            (to_numeric (level r)) (to_numeric (flow r)) (extra r).

Definition pull_station (station_number : string) (aggregate : bool) (limit : Z)
           (pull_from_df : option ref) : M store pyvalue :=
  (* Checks the station name is correct *)
  if bool_decide (station_number ∉ dom STATIONS) then mret PyFalse
  else
    (* Pull River data *)
    df ← match pull_from_df with
         | None =>
             match read_json (RIVER_DATA_API_URL +:+ "?station_number=" +:+ station_number
                                +:+ "&$order=timestamp%20DESC&$limit=" +:+ pretty limit) with
             | Some rows => alloc (Raw rows)
             | None => raise HTTPError
             end
         | Some src =>
             t ← load src;
             match t with
             | Raw rows =>
                 alloc (Raw (select_station station_number rows))
             | Numeric rows =>
                 alloc (Numeric (select_station station_number rows))
             | Daily _ => raise (KeyError "station_number")
             end
         end;
    (* Convert level and flow columns to numeric, and coerce errors to NaN *)
    t ← load df;
    rows ← match t with
           | Raw rows => mret (coerce <$> rows)
           | Numeric rows => mret rows
           | Daily _ => raise (KeyError "['level', 'flow']")
           end;
    write df (Numeric rows);;
    if aggregate then
      (* Create placeholder columns for min/max calculations *)
      write df (Numeric (add_placeholders <$> rows));;
      (* Resample and aggregate *)
      match resample_agg_fillna AGGREGATE_COLUMNS (add_placeholders <$> rows) with
      | Some days => df' ← alloc (Daily days); mret (PyFrame df')
      | None => raise (KeyError "aggregate")
      end
    else mret (PyFrame df).

End Shaper.

(** ** Publisher: [tweet_general_update]

    The Twitter API is an oracle.  Its state is the log of the calls made so
    far; its answer to a call may depend on the log. *)

Inductive api_call :=
| media_upload (filename : string) (file : list Byte.byte)
| update_status (status : string) (media_ids : list string).

Section Publisher.

(** The [media_id_string] of the response to an upload, or nothing when
    the call raises. *)
Variable upload_response : list api_call -> string -> list Byte.byte -> option string.
(** Whether posting succeeds. *)
Variable status_response : list api_call -> string -> list string -> bool.

Definition api_media_upload (filename : string) (file : list Byte.byte) : M (list api_call) string :=
  fun log =>
    match upload_response log filename file with
    | Some media_id_string => (Ret media_id_string, (log ++ [media_upload filename file])%list)
    | None => (Raise TweepError, (log ++ [media_upload filename file])%list)
    end.

Definition api_update_status (status : string) (media_ids : list string) : M (list api_call) unit :=
  fun log =>
    if status_response log status media_ids
    then (Ret tt, (log ++ [update_status status media_ids])%list)
    else (Raise TweepError, (log ++ [update_status status media_ids])%list).

(** The [for image, image_name in image_list] loop, from the current
    [media_list]. *)
Fixpoint upload_images (image_list : list (list Byte.byte * string)) (media_list : list string)
  : M (list api_call) (list string) :=
  match image_list with
  | [] => mret media_list
  | (image, image_name) :: image_list' =>
      response ← api_media_upload image_name image;
      upload_images image_list' (media_list ++ [response])%list
  end.

Definition tweet_general_update (tweet_str : string) (image_list : list (list Byte.byte * string))
  : M (list api_call) unit :=
  (* Uploads images *)
  media_list ← upload_images image_list [];
  (* Send Tweet *)
  api_update_status tweet_str media_list.

End Publisher.

(** The upload calls an image list asks for, in list order. *)
Definition uploads (image_list : list (list Byte.byte * string)) : list api_call :=
  (fun p : list Byte.byte * string => media_upload p.2 p.1) <$> image_list.

(** ** Sample inputs *)

(** Two Elbow readings on 2020-06-15, at 14:30 and 15:30: levels 1 and 2,
    flows 10 and 20. *)
Definition elbow_two_readings : list (Reading cell) :=
  [ mkReading 1592231400000000000 "05BJ001" "Elbow River below Glenmore Dam"
              (Num (float_of_int 1)) (Num (float_of_int 10)) [];
    mkReading 1592235000000000000 "05BJ001" "Elbow River below Glenmore Dam"
              (Num (float_of_int 2)) (Num (float_of_int 20)) [] ].

(** Four readings of 2020-06-15 14:30 with known values: Bow at Cochrane
    with flow 12.345 and level 1000.1, Glenmore with level 1048.6. *)
Definition sample_bow : Reading float64 :=
  mkReading 1592231400000000000 "05BH004" "Bow River at Calgary"
            (decimal 10452 1) (decimal 9875 2) [].
Definition sample_elbow : Reading float64 :=
  mkReading 1592231400000000000 "05BJ001" "Elbow River below Glenmore Dam"
            (decimal 107555 2) (decimal 105 1) [].
Definition sample_glenmore : Reading float64 :=
  mkReading 1592231400000000000 "05BJ008" "Glenmore Reservoir at Calgary"
            (decimal 10486 1) (decimal 1 0) [].
Definition sample_bow_c : Reading float64 :=
  mkReading 1592231400000000000 "05BH005" "Bow River near Cochrane"
            (decimal 10001 1) (decimal 12345 3) [].

(** The Cochrane reading with its level missing. *)
Definition sample_bow_c_no_level : Reading float64 :=
  mkReading 1592231400000000000 "05BH005" "Bow River near Cochrane"
            nan (decimal 12345 3) [].

(** ** The bulk download: [pull_all_recent_stations] *)

Section Feed.

(** [pd.read_json(url).set_index("timestamp")], as in [pull_station]. *)
Variable read_json : string -> option (list (Reading cell)).

(** The [aggregate] argument is accepted and not used. *)
Definition pull_all_recent_stations (aggregate : bool) (limit : Z) : M store ref :=
  match read_json (RIVER_DATA_API_URL +:+ "?$limit=" +:+ pretty limit) with
  | Some rows => alloc (Raw rows)
  | None => raise HTTPError
  end.

End Feed.

(** ** Credentials: [pull_environment_variables], [tweepy_auth]

    The four names bound by [from keys import *] are module globals; the
    state of these computations is their value. *)

Record keys := mkKeys {
  CONSUMER_KEY : string;
  CONSUMER_SECRET : string;
  ACCESS_TOKEN : string;
  ACCESS_TOKEN_SECRET : string
}.

(** What [tweepy.API(auth)] is built from. *)
Record API := mkAPI {
  consumer_key : string;
  consumer_secret : string;
  access_token : string;
  access_token_secret : string
}.

(** The function has no [global] statement: its four assignments bind local
    names.  [os.getenv] yields [None] for a missing variable,
    [os.environ[...]] raises [KeyError]. *)
Definition pull_environment_variables (environ : gmap string string) : M keys bool :=
  fun globals =>
    let CONSUMER_KEY := environ !! "CRB_CONSUMER_KEY" in
    match environ !! "CRB_CONSUMER_SECRET" with
    | None => (Raise (KeyError "CRB_CONSUMER_SECRET"), globals)
    | Some CONSUMER_SECRET =>
        match environ !! "CRB_ACCESS_TOKEN" with
        | None => (Raise (KeyError "CRB_ACCESS_TOKEN"), globals)
        | Some ACCESS_TOKEN =>
            match environ !! "CRB_ACCESS_TOKEN_SECRET" with
            | None => (Raise (KeyError "CRB_ACCESS_TOKEN_SECRET"), globals)
            | Some ACCESS_TOKEN_SECRET => (Ret true, globals)
            end
        end
    end.

Definition tweepy_auth : M keys API :=
  fun globals =>
    (Ret (mkAPI (CONSUMER_KEY globals) (CONSUMER_SECRET globals)
                (ACCESS_TOKEN globals) (ACCESS_TOKEN_SECRET globals)),
     globals).

(** ** Charts: [plot_chart], [gen_charts] *)

Definition STATION_NAME_MAP : gmap string string :=
  {[ "Bow River at Calgary" := "Bow - YYC";
     "Elbow River below Glenmore Dam" := "Elbow blw. Glenmore";
     "Glenmore Reservoir at Calgary" := "Glenmore Resevoir";
     "Bow River near Cochrane" := "Bow - Cochrane";
     "Elbow River at Bragg Creek" := "Elbow - Bragg Creek" ]}.

(** A row of the table that is plotted: the index has become the column
    [Date], and [flow], [level] and [station_name] are named
    "Flow (m3/s)", "Level (m)" and "Location". *)
Record ChartRow := mkChartRow {
  Date : Timestamp;
  chart_station_number : string;
  Location : string;
  Level : float64;
  Flow : float64;
  chart_extra : list (string * cell)
}.

(** What is drawn on the current figure, in drawing order. *)
Inductive artist :=
| lineplot (x y hue : string) (data : list ChartRow)
| text (x y : float64) (s : string)
       (verticalalignment horizontalalignment transform : string) (fontsize : Z)
| set_xlabel (xlabel : option string)
| xticks_rotation (rotation : Z)
| tight_layout.

(** What [plot_chart] returns: [True] or the buffer. *)
Inductive plot_result :=
| PlotTrue
| PlotBuffer (buf : list Byte.byte).

(** ** The whole process

    The state of a run: the data frames, the seaborn style and the current
    pyplot figure, the files written, and the calls made to Twitter. *)

Record world := mkWorld {
  frames : store;
  seaborn_style : option string;
  figure : list artist;
  files : list (string * list Byte.byte);
  twitter : list api_call
}.

(** Exceptions of the whole process.  [Unmodelled] marks an input this model
    does not follow (a frame of another shape than the one the callers
    pass). *)
Inductive error :=
| Exn (e : exn)
| IndexError
| ValueError
| TypeError
| AttributeError
| Unmodelled.

Inductive result (A : Type) :=
| Done (a : A)
| Failed (e : error).
Arguments Done {A}.
Arguments Failed {A}.

Definition P (A : Type) : Type := world -> result A * world.

#[export] Instance P_ret : MRet P := fun A a w => (Done a, w).

#[export] Instance P_bind : MBind P := fun A B k m w =>
  match m w with
  | (Done a, w') => k a w'
  | (Failed e, w') => (Failed e, w')
  end.

Definition fail {A} (e : error) : P A := fun w => (Failed e, w).

(** A computation on the data frames, or on the Twitter log, as a step of
    the process. *)
Definition on_frames {A} (m : M store A) : P A := fun w =>
  let set s := mkWorld s (seaborn_style w) (figure w) (files w) (twitter w) in
  match m (frames w) with
  | (Ret a, s) => (Done a, set s)
  | (Raise e, s) => (Failed (Exn e), set s)
  end.

Definition on_twitter {A} (m : M (list api_call) A) : P A := fun w =>
  let set log := mkWorld (frames w) (seaborn_style w) (figure w) (files w) log in
  match m (twitter w) with
  | (Ret a, log) => (Done a, set log)
  | (Raise e, log) => (Failed (Exn e), set log)
  end.

(** [sns.set(style=...)] *)
Definition sns_set (style : string) : P unit := fun w =>
  (Done tt, mkWorld (frames w) (Some style) (figure w) (files w) (twitter w)).

(** Drawing adds to the current figure. *)
Definition draw (a : artist) : P unit := fun w =>
  (Done tt, mkWorld (frames w) (seaborn_style w) (figure w ++ [a])%list (files w) (twitter w)).

(** [plt.close()]: the next drawing starts a new figure. *)
Definition plt_close : P unit := fun w =>
  (Done tt, mkWorld (frames w) (seaborn_style w) [] (files w) (twitter w)).

(** The decoration [plot_chart] gives every chart, after the lines. *)
Definition chart_artists (x_str y_str hue_str : string) (df : list ChartRow) : list artist :=
  [ lineplot x_str y_str hue_str df;
    text (decimal 95 2) (decimal 1 2) "By @CalgaryRiverBot on Twitter"
         "bottom" "right" "transAxes" 8;
    set_xlabel None;
    xticks_rotation 30;
    tight_layout ].

(** The table that is plotted, from a shaped reading: [reset_index],
    [rename] and [replace({"Location": STATION_NAME_MAP})]; a name that is
    not a key of the map stays. *)
Definition chart_row (r : Reading float64) : ChartRow :=
  mkChartRow (name r) (station_number r)
             (default (station_name r) (STATION_NAME_MAP !! station_name r))
             (level r) (flow r) (extra r).

(** The loop body of [gen_charts] on one table. *)
Definition chart_table (rows : list (Reading float64)) : list ChartRow :=
  chart_row <$> rows.

Section Process.

Variable str_to_float : string -> option float64.
Variable read_json : string -> option (list (Reading cell)).
Variable upload_response : list api_call -> string -> list Byte.byte -> option string.
Variable status_response : list api_call -> string -> list string -> bool.

(** The bytes [plt.savefig] produces for a figure drawn in a style: for a
    file of the given name, or, without a name, for a PNG buffer. *)
Variable savefig : option string -> option string -> list artist -> list Byte.byte.
(** The exception [sns.lineplot] raises on a table, if it raises. *)
Variable lineplot_error : string -> string -> string -> list ChartRow -> option error.
(** The exception [plt.savefig(None)] raises. *)
Variable savefig_None : error.

Definition sns_lineplot (x_str y_str hue_str : string) (df : list ChartRow) : P unit :=
  match lineplot_error x_str y_str hue_str df with
  | Some e => fail e
  | None => draw (lineplot x_str y_str hue_str df)
  end.

Definition plot_chart (df : list ChartRow) (x_str y_str hue_str : string)
           (file_name : option string) (return_buffer : bool) : P plot_result :=
  (* Stock seaborn lineplot func *)
  sns_lineplot x_str y_str hue_str df;;
  (* Annotate axes w/ twitter handle, etc. *)
  draw (text (decimal 95 2) (decimal 1 2) "By @CalgaryRiverBot on Twitter"
             "bottom" "right" "transAxes" 8);;
  (* Remove x-axis title *)
  draw (set_xlabel None);;
  (* Rotating x-ticks to display correctly *)
  draw (xticks_rotation 30);;
  draw tight_layout;;
  if negb return_buffer then
    match file_name with
    | Some path =>
        (fun w => (Done tt, mkWorld (frames w) (seaborn_style w) (figure w)
                                    (files w ++ [(path, savefig (Some path) (seaborn_style w) (figure w))])%list
                                    (twitter w)));;
        plt_close;;
        mret PlotTrue
    | None => fail savefig_None
    end
  else
    buf ← (fun w => (Done (savefig None (seaborn_style w) (figure w)), w));
    plt_close;;
    mret (PlotBuffer buf).

(** The rows of one element of a list given to [pd.concat]. *)
Definition frame_rows (v : pyvalue) : P (list (Reading float64)) :=
  match v with
  | PyFalse => fail TypeError
  | PyFrame r =>
      d ← on_frames (load r);
      match d with
      | Numeric rows => mret rows
      | _ => fail Unmodelled
      end
  end.

(** [pd.concat(dfs)]: a new table with the rows of all, in order; an empty
    list is refused. *)
Definition pd_concat (dfs : list pyvalue) : P (list (Reading float64)) :=
  match dfs with
  | [] => fail ValueError
  | _ => tables ← mapM frame_rows dfs; mret (concat tables)
  end.

Definition gen_charts (df_flow_list df_level_list : list pyvalue) : P (plot_result * plot_result) :=
  (* Concats df lists into single dataframes *)
  flow_dfs ← pd_concat df_flow_list;
  level_dfs ← pd_concat df_level_list;
  (* Renames columns, stations, and resets indecies: the loop works on both
     tables in place and leaves its variable [df] bound to the last one *)
  let df := List.last (chart_table <$> [flow_dfs; level_dfs]) [] in
  (* Gotta make it look pretty! *)
  sns_set "darkgrid";;
  chart1 ← plot_chart df "Date" "Flow (m3/s)" "Location" None true;
  chart2 ← plot_chart df "Date" "Level (m)" "Location" None true;
  mret (chart1, chart2).

(** [v.iloc[0]] *)
Definition iloc0 (v : pyvalue) : P (Reading float64) :=
  match v with
  | PyFalse => fail AttributeError
  | PyFrame r =>
      d ← on_frames (load r);
      match d with
      | Numeric (row :: _) => mret row
      | Numeric [] | Raw [] | Daily [] => fail IndexError
      | _ => fail Unmodelled
      end
  end.

Definition main : P bool :=
  (* Pulls main file *)
  df ← on_frames (pull_all_recent_stations read_json false 20000);
  (* Pulls the 4 main river stations *)
  glenmore ← on_frames (pull_station str_to_float read_json "05BJ008" false 5000 (Some df));
  bow ← on_frames (pull_station str_to_float read_json "05BH004" false 5000 (Some df));
  elbow ← on_frames (pull_station str_to_float read_json "05BJ001" false 5000 (Some df));
  bow_c ← on_frames (pull_station str_to_float read_json "05BH005" false 5000 (Some df));
  (* Generates string for tweeting *)
  bow0 ← iloc0 bow;
  elbow0 ← iloc0 elbow;
  glenmore0 ← iloc0 glenmore;
  bow_c0 ← iloc0 bow_c;
  let tweet_str := gen_tweet_str (np_row bow0) (np_row elbow0) (np_row glenmore0) (np_row bow_c0) in
  (* Generates the charts *)
  bufs ← gen_charts [bow_c; bow; elbow] [bow_c; bow; elbow];
  (* Tweets the details! *)
  match bufs with
  | (PlotBuffer buf1, PlotBuffer buf2) =>
      on_twitter (tweet_general_update upload_response status_response tweet_str
                                       [(buf1, "flow.png"); (buf2, "level.png")]);;
      mret true
  | _ => fail Unmodelled
  end.

End Process.

(** The value is a data frame of shaped readings (the result of
    [pull_station] without aggregation) with these rows. *)
Definition shaped_frame (w : world) (v : pyvalue) (rows : list (Reading float64)) : Prop :=
  exists r : ref, v = PyFrame r /\ frames w !! r = Some (Numeric rows).

(** A download with one reading for each station of the summary, all of
    2020-06-15 14:30, and the state of a process that has not done anything
    yet. *)
Definition feed_bow_c : Reading cell :=
  mkReading 1592231400000000000 "05BH005" "Bow River near Cochrane"
            (Num (decimal 10001 1)) (Num (decimal 12345 3)) [].
Definition feed_glenmore : Reading cell :=
  mkReading 1592231400000000000 "05BJ008" "Glenmore Reservoir at Calgary"
            (Num (decimal 10486 1)) (Str "NA") [].
Definition feed_bow : Reading cell :=
  mkReading 1592231400000000000 "05BH004" "Bow River at Calgary"
            (Num (decimal 10452 1)) (Num (decimal 9875 2)) [].
Definition feed_elbow : Reading cell :=
  mkReading 1592231400000000000 "05BJ001" "Elbow River below Glenmore Dam"
            (Num (decimal 107555 2)) (Num (decimal 105 1)) [].

Definition sample_feed : list (Reading cell) :=
  [ feed_bow_c; feed_glenmore; feed_bow; feed_elbow ].

Definition initial_world : world := mkWorld ∅ None [] [] [].

(* ===================================================================== *)
(** * Part II: properties *)
(* ===================================================================== *)

(** ** The order on floats *)

Lemma compare_cont_Eq_antisym (p q : positive) :
  Pos.compare_cont Eq q p = CompOpp (Pos.compare_cont Eq p q).
Proof. apply (Pos.compare_antisym p q). Qed.

Lemma SFcompare_antisym (x y : float64) :
  SFcompare y x = CompOpp <$> SFcompare x y.
Proof.
  destruct x as [s1|s1| |s1 m1 e1], y as [s2|s2| |s2 m2 e2]; simpl;
    try destruct s1; try destruct s2; try reflexivity; simpl;
    rewrite (Z.compare_antisym e2 e1), (compare_cont_Eq_antisym m1 m2);
    destruct (e2 ?= e1); simpl; try reflexivity;
    destruct (Pos.compare_cont Eq m1 m2); reflexivity.
Qed.

Lemma fle_not_flt (x y : float64) : fle x y = true -> flt y x = false.
Proof.
  unfold fle, flt, SFleb, SFltb. rewrite (SFcompare_antisym x y).
  destruct (SFcompare x y) as [[]|]; simpl; congruence.
Qed.

Lemma feq_fle (x y : float64) : feq x y = true -> fle x y = true /\ fle y x = true.
Proof.
  unfold feq, fle, SFeqb, SFleb. rewrite (SFcompare_antisym x y).
  destruct (SFcompare x y) as [[]|]; simpl; split; congruence.
Qed.

Ltac cmp_cases :=
  repeat match goal with
    | |- context [(?a ?= ?b)%Z] => destruct (Z.compare_spec a b)
    | H : context [(?a ?= ?b)%Z] |- _ => destruct (Z.compare_spec a b)
    | |- context [Pos.compare_cont Eq ?a ?b] =>
        change (Pos.compare_cont Eq a b) with (Pos.compare a b);
        destruct (Pos.compare_spec a b)
    | H : context [Pos.compare_cont Eq ?a ?b] |- _ =>
        change (Pos.compare_cont Eq a b) with (Pos.compare a b) in H;
        destruct (Pos.compare_spec a b)
    end.

Ltac float_order :=
  unfold flt, fle, SFltb, SFleb;
  repeat match goal with x : float64 |- _ => destruct x as [[]|[]| |[] ? ?] end;
  simpl; try congruence; cmp_cases; simpl; try congruence; try lia.

Lemma flt_fle_trans (x y z : float64) : flt x y = true -> fle y z = true -> flt x z = true.
Proof. float_order. Qed.

Lemma fle_flt_trans (x y z : float64) : fle x y = true -> flt y z = true -> flt x z = true.
Proof. float_order. Qed.

Lemma flt_fle (x y : float64) : flt x y = true -> fle x y = true.
Proof. float_order. Qed.

Lemma flt_nan_l (y : float64) : flt nan y = false.
Proof. reflexivity. Qed.

(** ** StatusClassifier *)

(** The loop returns the value of the first item whose key exceeds the flow,
    and nothing when no key does. *)
Lemma first_below_spec (flow : float64) (items : list (Z * string)) :
  match first_below flow items with
  | Some value =>
      exists (i : nat) (key : Z),
        items !! i = Some (key, value) /\
        flt flow (float_of_int key) = true /\
        forall (j : nat) (key' : Z) (value' : string),
          (j < i)%nat -> items !! j = Some (key', value') ->
          flt flow (float_of_int key') = false
  | None =>
      forall (key : Z) (value : string),
        (key, value) ∈ items -> flt flow (float_of_int key) = false
  end.
Proof.
  induction items as [|[key value] items IH]; simpl.
  - intros key value H. inversion H.
  - destruct (flt flow (float_of_int key)) eqn:E.
    + exists 0%nat, key. repeat split; auto. intros j ? ? Hj. lia.
    + destruct (first_below flow items) as [value'|].
      * destruct IH as (i & key' & Hi & Hlt & Hbefore).
        exists (S i), key'. repeat split; auto.
        intros [|j] k' v' Hj Hl; simpl in Hl.
        -- congruence.
        -- apply (Hbefore j k' v'); [lia | assumption].
      * intros k' v' Hin. apply elem_of_cons in Hin as [Heq | Hin].
        -- congruence.
        -- eauto.
Qed.

(** The first matching item is unique: an item that matches with no match
    before it is the one the loop returns. *)
Lemma first_below_first (flow : float64) (items : list (Z * string))
      (i : nat) (key : Z) (value : string) :
  items !! i = Some (key, value) ->
  flt flow (float_of_int key) = true ->
  (forall (j : nat) (key' : Z) (value' : string),
      (j < i)%nat -> items !! j = Some (key', value') ->
      flt flow (float_of_int key') = false) ->
  first_below flow items = Some value.
Proof.
  revert i. induction items as [|[k v] items IH]; intros i Hi Hlt Hbefore.
  - destruct i; discriminate.
  - simpl. destruct i as [|i]; simpl in Hi.
    + injection Hi as -> ->. rewrite Hlt. reflexivity.
    + rewrite (Hbefore 0%nat k v); [|lia|reflexivity].
      apply (IH i); auto.
      intros j k' v' Hj Hl. apply (Hbefore (S j) k' v'); [lia | exact Hl].
Qed.

Lemma first_below_none (flow : float64) (items : list (Z * string)) :
  (forall (key : Z) (value : string),
      (key, value) ∈ items -> flt flow (float_of_int key) = false) ->
  first_below flow items = None.
Proof.
  induction items as [|[k v] items IH]; intros H; simpl; [reflexivity|].
  rewrite (H k v) by (apply elem_of_cons; by left).
  apply IH. intros k' v' Hin. apply (H k' v'). apply elem_of_cons. by right.
Qed.

Lemma flt_20_35 : flt (float_of_int 20) (float_of_int 35) = true.
Proof. reflexivity. Qed.

Lemma flt_35_50 : flt (float_of_int 35) (float_of_int 50) = true.
Proof. reflexivity. Qed.

(** The classifier on the Elbow station at a few flows. *)
Example status_symbol_19_99 : status_symbol "05BJ001" (decimal 1999 2) = "🟢".
Proof. reflexivity. Qed.

Example status_symbol_20 : status_symbol "05BJ001" (float_of_int 20) = "🟡".
Proof. reflexivity. Qed.

Example status_symbol_34_99 : status_symbol "05BJ001" (decimal 3499 2) = "🟡".
Proof. reflexivity. Qed.

Example status_symbol_35 : status_symbol "05BJ001" (float_of_int 35) = "🔴".
Proof. reflexivity. Qed.

Example status_symbol_50 : status_symbol "05BJ001" (float_of_int 50) = "🔴".
Proof. reflexivity. Qed.

Example status_symbol_inf : status_symbol "05BJ001" (S754_infinity false) = "🔴".
Proof. reflexivity. Qed.

Example status_symbol_negative : status_symbol "05BJ001" (decimal (-5) 1) = "🟢".
Proof. reflexivity. Qed.

(** C1: on a station configured with the thresholds (20, Safe), (35, Warn),
    (50, Danger), [status_symbol] of a flow that is not NaN is the marker of
    the first threshold the flow is strictly below, and Danger when there is
    none: Safe below 20, Warn from 20 (included) to 35 (excluded), Danger
    from 35 on, in particular at 35 and from 50 on. *)
Theorem status_symbol_thresholds
        (station_number : string) (levels : gmap string (list (Z * string))) (v : float64) :
  MARKER_LEVELS !! station_number = Some levels ->
  levels !!! "flow" = [ (20, MARKERS !!! "Safe"); (35, MARKERS !!! "Warn"); (50, MARKERS !!! "Danger") ] ->
  isnan v = false ->
  (forall (i : nat) (key : Z) (value : string),
      (levels !!! "flow") !! i = Some (key, value) ->
      flt v (float_of_int key) = true ->
      (forall (j : nat) (key' : Z) (value' : string),
          (j < i)%nat -> (levels !!! "flow") !! j = Some (key', value') ->
          flt v (float_of_int key') = false) ->
      status_symbol station_number v = value) /\
  ((forall (key : Z) (value : string),
       (key, value) ∈ levels !!! "flow" -> flt v (float_of_int key) = false) ->
   status_symbol station_number v = MARKERS !!! "Danger") /\
  (flt v (float_of_int 20) = true ->
   status_symbol station_number v = MARKERS !!! "Safe") /\
  (fle (float_of_int 20) v = true -> flt v (float_of_int 35) = true ->
   status_symbol station_number v = MARKERS !!! "Warn") /\
  (fle (float_of_int 35) v = true -> flt v (float_of_int 50) = true ->
   status_symbol station_number v = MARKERS !!! "Danger") /\
  (fle (float_of_int 50) v = true ->
   status_symbol station_number v = MARKERS !!! "Danger") /\
  (feq v (float_of_int 20) = true ->
   status_symbol station_number v = MARKERS !!! "Warn") /\
  (feq v (float_of_int 35) = true ->
   status_symbol station_number v = MARKERS !!! "Danger").
Proof.
  intros Hst Hlv _.
  assert (Hsome : forall value, first_below v (levels !!! "flow") = Some value ->
                                status_symbol station_number v = value).
  { intros value E. unfold status_symbol. rewrite Hst, E. reflexivity. }
  assert (Hnone : first_below v (levels !!! "flow") = None ->
                  status_symbol station_number v = MARKERS !!! "Danger").
  { intros E. unfold status_symbol. rewrite Hst, E. reflexivity. }
  assert (Hwarn : fle (float_of_int 20) v = true -> flt v (float_of_int 35) = true ->
                  status_symbol station_number v = MARKERS !!! "Warn").
  { intros H20 H35. apply Hsome.
    rewrite Hlv. cbn [first_below]. rewrite (fle_not_flt _ _ H20), H35. reflexivity. }
  assert (Hdanger : fle (float_of_int 35) v = true ->
                    status_symbol station_number v = MARKERS !!! "Danger").
  { intros H35.
    pose proof (fle_not_flt _ _ H35) as N35.
    pose proof (flt_fle_trans _ _ _ flt_20_35 H35) as L20.
    assert (N20 : flt v (float_of_int 20) = false).
    { apply fle_not_flt, flt_fle, L20. }
    unfold status_symbol. rewrite Hst, Hlv. cbn [first_below]. rewrite N20, N35.
    destruct (flt v (float_of_int 50)); reflexivity. }
  repeat split.
  - intros i key value Hi Hlt Hbefore. apply Hsome.
    eapply first_below_first; eauto.
  - intros Hnone'. apply Hnone. by apply first_below_none.
  - intros H20. apply Hsome.
    rewrite Hlv. cbn [first_below]. rewrite H20. reflexivity.
  - exact Hwarn.
  - intros H35 _. exact (Hdanger H35).
  - intros H50. apply Hdanger.
    apply flt_fle. exact (flt_fle_trans _ _ _ flt_35_50 H50).
  - intros E. apply feq_fle in E as [E1 E2].
    apply Hwarn; [exact E2|]. exact (fle_flt_trans _ _ _ E1 flt_20_35).
  - intros E. apply feq_fle in E as [E1 E2]. exact (Hdanger E2).
Qed.

Lemma status_symbol_thresholds_witness :
  status_symbol "05BJ001" (decimal 275 1) = MARKERS !!! "Warn".
Proof.
  refine (proj1 (proj2 (proj2 (proj2
    (status_symbol_thresholds "05BJ001"
       {[ "flow" := [ (20, MARKERS !!! "Safe"); (35, MARKERS !!! "Warn"); (50, MARKERS !!! "Danger") ] ]}
       (decimal 275 1) _ _ _)))) _ _); reflexivity.
Defined.

(** No threshold exceeds a NaN flow: the loop falls through. *)
Lemma first_below_nan (items : list (Z * string)) : first_below nan items = None.
Proof. induction items as [|[key value] items IH]; [reflexivity | exact IH]. Qed.

Lemma status_symbol_nan_configured (station_number : string) (levels : gmap string (list (Z * string))) :
  MARKER_LEVELS !! station_number = Some levels ->
  status_symbol station_number nan = MARKERS !!! "Danger".
Proof.
  intros H. unfold status_symbol. rewrite H, first_below_nan. reflexivity.
Qed.

(** C2 (what the code does): for the Elbow station 05BJ001, which has
    threshold rules, a missing (NaN) flow is classified Danger; the result
    is not the empty, unclassified marker. *)
Theorem status_symbol_nan_elbow :
  status_symbol "05BJ001" nan = MARKERS !!! "Danger" /\
  status_symbol "05BJ001" nan = "🔴" /\
  status_symbol "05BJ001" nan <> "".
Proof. repeat split. discriminate. Qed.

(** C7: for a station with no configured threshold rules, [status_symbol]
    returns the empty string whatever the flow is, NaN included. *)
Theorem status_symbol_unconfigured (station_number : string) (flow : float64) :
  MARKER_LEVELS !! station_number = None ->
  status_symbol station_number flow = "".
Proof. intros H. unfold status_symbol. rewrite H. reflexivity. Qed.

Lemma status_symbol_unconfigured_witness :
  status_symbol "05BH004" nan = "" /\ status_symbol "05BH004" (decimal 60 0) = "".
Proof.
  split; apply (status_symbol_unconfigured "05BH004"); reflexivity.
Defined.

(** ** ReadingShaper *)

(** *** The store only grows *)

Lemma extends_refl (s : store) : extends s s.
Proof. intros r d H. exact H. Qed.

Lemma extends_insert (s s' : store) (r : ref) (d : DataFrame) :
  extends s s' -> s !! r = None -> extends s (<[r := d]> s').
Proof.
  intros Hext Hr r' d' H. rewrite lookup_insert_ne; [by apply Hext | congruence].
Qed.

Lemma extends_fresh (s s' : store) : extends s s' -> s !! fresh (dom s') = None.
Proof.
  intros Hext. destruct (s !! fresh (dom s')) as [d|] eqn:E; [|reflexivity].
  apply Hext in E. exfalso. apply (is_fresh (dom s')). apply elem_of_dom. eauto.
Qed.

Section ShaperFacts.
  Variable str_to_float : string -> option float64.
  Variable read_json : string -> option (list (Reading cell)).

Lemma pull_station_extends (station_number : string) (aggregate : bool) (limit : Z)
        (pull_from_df : option ref) (s : store) :
  extends s (pull_station str_to_float read_json station_number aggregate limit pull_from_df s).2.
Proof.
  unfold pull_station.
  destruct (bool_decide _); [apply extends_refl|].
  unfold mbind, M_bind, mret, M_ret, alloc, load, write, raise.
  assert (Hf : s !! fresh (dom s) = None) by apply extends_fresh, extends_refl.
  destruct pull_from_df as [src|];
    [ destruct (s !! src) as [[rows|rows|rows]|] eqn:Hsrc
    | destruct (read_json _) as [rows|] ];
    cbn [snd]; try apply extends_refl;
    rewrite lookup_insert_eq;
    (destruct aggregate;
     [ destruct (resample_agg_fillna _ _) | ]);
    cbn [snd];
    repeat first
      [ apply extends_refl
      | apply extends_insert; [| solve [exact Hf | apply extends_fresh; repeat (apply extends_insert; [|exact Hf]); apply extends_refl ] ] ].
Qed.

Lemma pull_station_result_fresh (station_number : string) (aggregate : bool) (limit : Z)
        (pull_from_df : option ref) (s : store) (df : ref) :
  (pull_station str_to_float read_json station_number aggregate limit pull_from_df s).1
    = Ret (PyFrame df) ->
  s !! df = None.
Proof.
  unfold pull_station.
  destruct (bool_decide _); [discriminate|].
  unfold mbind, M_bind, mret, M_ret, alloc, load, write, raise.
  assert (Hf : s !! fresh (dom s) = None) by apply extends_fresh, extends_refl.
  destruct pull_from_df as [src|];
    [ destruct (s !! src) as [[rows|rows|rows]|] eqn:Hsrc
    | destruct (read_json _) as [rows|] ];
    cbn [fst]; try discriminate;
    rewrite lookup_insert_eq;
    (destruct aggregate;
     [ destruct (resample_agg_fillna _ _) | ]);
    cbn [fst]; try discriminate;
    intros [= <-]; try exact Hf;
    apply extends_fresh; repeat (apply extends_insert; [|exact Hf]); apply extends_refl.
Qed.

End ShaperFacts.

Lemma dict_get_set_eq {V : Type} (d : list (string * V)) (k : string) (v : V) :
  dict_get (dict_set d k v) k = Some v.
Proof.
  induction d as [|[k' v'] d IH]; simpl.
  - by rewrite decide_True.
  - destruct (decide (k = k')) as [->|Hne]; simpl.
    + by rewrite decide_True.
    + by rewrite decide_False.
Qed.

Lemma dict_get_set_ne {V : Type} (d : list (string * V)) (k k' : string) (v : V) :
  k <> k' -> dict_get (dict_set d k v) k' = dict_get d k'.
Proof.
  intros Hne. induction d as [|[k0 v0] d IH]; simpl.
  - by rewrite decide_False.
  - destruct (decide (k = k0)) as [->|Hne0]; simpl.
    + by rewrite !decide_False.
    + destruct (decide (k' = k0)); [reflexivity | exact IH].
Qed.

Lemma AGGREGATE_COLUMNS_eq :
  AGGREGATE_COLUMNS = [("level", np_mean); ("level_min", np_min); ("level_max", np_max); ("flow", np_max)].
Proof. reflexivity. Qed.

Lemma column_level (r : Reading float64) : column "level" r = Some (level r).
Proof. reflexivity. Qed.

Lemma column_flow (r : Reading float64) : column "flow" r = Some (flow r).
Proof. reflexivity. Qed.

Lemma column_level_min (r : Reading float64) :
  column "level_min" (add_placeholders r) = Some (level r).
Proof.
  unfold column. rewrite !decide_False by discriminate. cbn [extra add_placeholders].
  rewrite !dict_get_set_ne by discriminate. by rewrite dict_get_set_eq.
Qed.

Lemma column_level_max (r : Reading float64) :
  column "level_max" (add_placeholders r) = Some (level r).
Proof.
  unfold column. rewrite !decide_False by discriminate. cbn [extra add_placeholders].
  rewrite !dict_get_set_ne by discriminate. by rewrite dict_get_set_eq.
Qed.

Lemma mapM_column_fmap (c : string) (f : Reading float64 -> float64) (bin : list (Reading float64)) :
  (forall r, column c (add_placeholders r) = Some (f r)) ->
  mapM (M := option) (column c) (add_placeholders <$> bin) = Some (f <$> bin).
Proof.
  intros H. apply mapM_Some. induction bin as [|r bin IH]; simpl; constructor; auto.
Qed.

Lemma agg_placeholders (bin : list (Reading float64)) :
  agg AGGREGATE_COLUMNS (add_placeholders <$> bin) = Some (daily_columns bin).
Proof.
  rewrite AGGREGATE_COLUMNS_eq. unfold agg. cbn [mapM fst snd].
  rewrite (mapM_column_fmap "level" level), (mapM_column_fmap "level_min" level),
    (mapM_column_fmap "level_max" level), (mapM_column_fmap "flow" flow);
    auto using column_level_min, column_level_max.
Qed.

Lemma filter_add_placeholders (d : Z) (rows : list (Reading float64)) :
  filter (fun r => day_of (name r) = d) (add_placeholders <$> rows)
  = add_placeholders <$> filter (fun r => day_of (name r) = d) rows.
Proof.
  induction rows as [|r rows IH]; [reflexivity|].
  rewrite fmap_cons, !filter_cons. cbn [name add_placeholders].
  destruct (decide (day_of (name r) = d)); rewrite IH; reflexivity.
Qed.

Lemma resample_1D_placeholders (rows : list (Reading float64)) :
  resample_1D (add_placeholders <$> rows)
  = (fun bin : Timestamp * list (Reading float64) => (bin.1, add_placeholders <$> bin.2)) <$> resample_1D rows.
Proof.
  unfold resample_1D. rewrite <- list_fmap_compose.
  change (name ∘ add_placeholders) with (@name float64).
  destruct (name <$> rows) as [|t ts]; [reflexivity|].
  rewrite <- list_fmap_compose. apply list_fmap_ext. intros i d _. cbn.
  by rewrite filter_add_placeholders.
Qed.

Lemma resample_agg_fillna_placeholders (rows : list (Reading float64)) :
  resample_agg_fillna AGGREGATE_COLUMNS (add_placeholders <$> rows)
  = Some ((fun bin : Timestamp * list (Reading float64) => (bin.1, prod_map id fillna0 <$> daily_columns bin.2)) <$> resample_1D rows).
Proof.
  unfold resample_agg_fillna. rewrite resample_1D_placeholders.
  apply mapM_Some. induction (resample_1D rows) as [|bin bins IH]; [constructor|].
  rewrite !fmap_cons. constructor; [|exact IH].
  cbn [fst snd]. by rewrite agg_placeholders.
Qed.

(** C6: for a station identifier that is not a key of [STATIONS],
    [pull_station] returns [False] whatever its other arguments are; it
    raises nothing and touches no data frame. *)
Theorem pull_station_unknown_station
        (str_to_float : string -> option float64)
        (read_json : string -> option (list (Reading cell)))
        (station_number : string) (aggregate : bool) (limit : Z)
        (pull_from_df : option ref) (s : store) :
  STATIONS !! station_number = None ->
  pull_station str_to_float read_json station_number aggregate limit pull_from_df s
  = (Ret PyFalse, s).
Proof.
  intros H. unfold pull_station.
  rewrite bool_decide_eq_true_2; [reflexivity|].
  by apply not_elem_of_dom.
Qed.

Lemma pull_station_unknown_station_witness :
  pull_station (fun _ => None) (fun _ => None) "05XX000" true 5000 (Some 1%positive)
               {[ 1%positive := Raw [] ]}
  = (Ret PyFalse, {[ 1%positive := Raw [] ]}).
Proof.
  apply (pull_station_unknown_station (fun _ => None) (fun _ => None) "05XX000").
  reflexivity.
Defined.

Lemma configured_station (station : string) :
  is_Some (STATIONS !! station) -> bool_decide (station ∉ dom STATIONS) = false.
Proof.
  intros H. apply bool_decide_eq_false_2. intros Hn. apply Hn. by apply elem_of_dom.
Qed.

(** The run of [pull_station] on a table of readings, step by step: the
    filtered copy is allocated, coerced in place and returned; with
    aggregation it also receives the placeholder columns, and the daily
    frame is a further new object. *)
Lemma pull_station_from_table
        (str_to_float : string -> option float64)
        (read_json : string -> option (list (Reading cell)))
        (station : string) (limit : Z) (src : ref)
        (table : list (Reading cell)) (s : store) :
  is_Some (STATIONS !! station) ->
  s !! src = Some (Raw table) ->
  forall aggregate : bool,
    pull_station str_to_float read_json station aggregate limit (Some src) s
    = if aggregate
      then
        let df := fresh (dom s) in
        let rows := coerce str_to_float <$> select_station station table in
        let s1 := <[df := Numeric (add_placeholders <$> rows)]>
                    (<[df := Numeric rows]>
                       (<[df := Raw (select_station station table)]> s)) in
        (Ret (PyFrame (fresh (dom s1))),
         <[fresh (dom s1) :=
             Daily ((fun bin : Timestamp * list (Reading float64) =>
                       (bin.1, prod_map id fillna0 <$> daily_columns bin.2))
                      <$> resample_1D rows)]> s1)
      else
        (Ret (PyFrame (fresh (dom s))),
         <[fresh (dom s) := Numeric (coerce str_to_float <$> select_station station table)]>
           (<[fresh (dom s) := Raw (select_station station table)]> s)).
Proof.
  intros Hst Hsrc aggregate.
  unfold pull_station. rewrite (configured_station _ Hst).
  unfold mbind, M_bind, mret, M_ret, alloc, load, write, raise.
  rewrite Hsrc, lookup_insert_eq.
  destruct aggregate; [|reflexivity].
  rewrite resample_agg_fillna_placeholders. reflexivity.
Qed.

(** The same on a fresh download: the rows served are coerced, none is
    dropped. *)
Lemma pull_station_fetched
        (str_to_float : string -> option float64)
        (read_json : string -> option (list (Reading cell)))
        (station : string) (limit : Z) (rows : list (Reading cell)) (s : store) :
  is_Some (STATIONS !! station) ->
  read_json (RIVER_DATA_API_URL +:+ "?station_number=" +:+ station
               +:+ "&$order=timestamp%20DESC&$limit=" +:+ pretty limit) = Some rows ->
  pull_station str_to_float read_json station false limit None s
  = (Ret (PyFrame (fresh (dom s))),
     <[fresh (dom s) := Numeric (coerce str_to_float <$> rows)]>
       (<[fresh (dom s) := Raw rows]> s)).
Proof.
  intros Hst Hget.
  unfold pull_station. rewrite (configured_station _ Hst), Hget.
  unfold mbind, M_bind, mret, M_ret, alloc, load, write.
  rewrite lookup_insert_eq. reflexivity.
Qed.

(** C8: called on a table of readings for a configured station,
    [pull_station] returns a data frame and raises nothing, with or without
    aggregation; without aggregation the frame holds one row per row of the
    filtered table, in the same order and with the same index and station
    columns, whose [level] and [flow] are the coerced values: a number is
    kept, a string that denotes a number becomes that number, a value that
    cannot be parsed (and a null) becomes NaN. *)
Theorem pull_station_coerces_to_numeric
        (str_to_float : string -> option float64)
        (read_json : string -> option (list (Reading cell)))
        (station : string) (limit : Z) (src : ref)
        (table : list (Reading cell)) (s : store) :
  is_Some (STATIONS !! station) ->
  s !! src = Some (Raw table) ->
  (forall aggregate : bool,
      exists (df : ref) (s' : store),
        pull_station str_to_float read_json station aggregate limit (Some src) s
        = (Ret (PyFrame df), s')) /\
  (exists (df : ref) (s' : store),
      pull_station str_to_float read_json station false limit (Some src) s
      = (Ret (PyFrame df), s') /\
      s' !! df = Some (Numeric (coerce str_to_float <$> select_station station table))) /\
  length (coerce str_to_float <$> select_station station table)
  = length (select_station station table) /\
  (forall (i : nat) (r : Reading cell),
      select_station station table !! i = Some r ->
      exists r' : Reading float64,
        (coerce str_to_float <$> select_station station table) !! i = Some r' /\
        name r' = name r /\
        station_number r' = station_number r /\
        station_name r' = station_name r /\
        level r' = to_numeric str_to_float (level r) /\
        flow r' = to_numeric str_to_float (flow r)) /\
  (forall x : float64, to_numeric str_to_float (Num x) = x) /\
  (forall (t : string) (x : float64),
      str_to_float t = Some x -> to_numeric str_to_float (Str t) = x) /\
  (forall t : string, str_to_float t = None -> to_numeric str_to_float (Str t) = nan) /\
  to_numeric str_to_float Null = nan.
Proof.
  intros Hst Hsrc.
  pose proof (pull_station_from_table str_to_float read_json station limit src table s Hst Hsrc) as Hrun.
  repeat split.
  - intros aggregate. rewrite Hrun. destruct aggregate; eauto.
  - do 2 eexists. split; [apply (Hrun false)|]. apply lookup_insert_eq.
  - apply length_fmap.
  - intros i r Hi. exists (coerce str_to_float r). split.
    + rewrite list_lookup_fmap, Hi. reflexivity.
    + repeat split.
  - intros t x Ht. simpl. rewrite Ht. reflexivity.
  - intros t Ht. simpl. rewrite Ht. reflexivity.
Qed.

Lemma pull_station_coerces_to_numeric_witness :
  exists (df : ref) (s' : store),
    pull_station (fun _ => None) (fun _ => None) "05BJ001" false 5000 (Some 1%positive)
                 {[ 1%positive := Raw [ mkReading 0 "05BJ001" "Elbow" (Str "NA") (Num (decimal 105 1)) [];
                                        mkReading 0 "05BH004" "Bow" (Num (decimal 3 0)) Null [] ] ]}
    = (Ret (PyFrame df), s') /\
    s' !! df = Some (Numeric [ mkReading 0 "05BJ001" "Elbow" nan (decimal 105 1) [] ]).
Proof.
  refine (proj1 (proj2
    (pull_station_coerces_to_numeric (fun _ => None) (fun _ => None) "05BJ001" 5000 1%positive
       [ mkReading 0 "05BJ001" "Elbow" (Str "NA") (Num (decimal 105 1)) [];
         mkReading 0 "05BH004" "Bow" (Num (decimal 3 0)) Null [] ]
       {[ 1%positive := Raw [ mkReading 0 "05BJ001" "Elbow" (Str "NA") (Num (decimal 105 1)) [];
                              mkReading 0 "05BH004" "Bow" (Num (decimal 3 0)) Null [] ] ]}
       _ _))).
  - exists "Elbow River below Glenmore Dam". reflexivity.
  - reflexivity.
Defined.

(** C10: [pull_station] leaves the table it is given as [pull_from_df]
    unchanged: after the call the store holds the same table under the same
    reference (and so for every other data frame that existed before), and
    the data frame returned is a new object, not the input. *)
Theorem pull_station_leaves_input_unchanged
        (str_to_float : string -> option float64)
        (read_json : string -> option (list (Reading cell)))
        (station : string) (aggregate : bool) (limit : Z) (src : ref)
        (table : DataFrame) (s : store) :
  is_Some (STATIONS !! station) ->
  s !! src = Some table ->
  (pull_station str_to_float read_json station aggregate limit (Some src) s).2 !! src
  = Some table /\
  extends s (pull_station str_to_float read_json station aggregate limit (Some src) s).2 /\
  (forall df : ref,
      (pull_station str_to_float read_json station aggregate limit (Some src) s).1
      = Ret (PyFrame df) ->
      df <> src /\ s !! df = None).
Proof.
  intros _ Hsrc. repeat split.
  - by apply pull_station_extends.
  - apply pull_station_extends.
  - intros ->. apply pull_station_result_fresh in H. congruence.
  - by apply pull_station_result_fresh in H.
Qed.

Lemma pull_station_leaves_input_unchanged_witness :
  (pull_station (fun _ => None) (fun _ => None) "05BJ001" true 5000 (Some 1%positive)
                {[ 1%positive := Raw [ mkReading 0 "05BJ001" "Elbow" (Str "NA") (Num (decimal 105 1)) [] ] ]}).2
    !! 1%positive
  = Some (Raw [ mkReading 0 "05BJ001" "Elbow" (Str "NA") (Num (decimal 105 1)) [] ]).
Proof.
  refine (proj1
    (pull_station_leaves_input_unchanged (fun _ => None) (fun _ => None) "05BJ001" true 5000 1%positive
       (Raw [ mkReading 0 "05BJ001" "Elbow" (Str "NA") (Num (decimal 105 1)) [] ])
       {[ 1%positive := Raw [ mkReading 0 "05BJ001" "Elbow" (Str "NA") (Num (decimal 105 1)) [] ] ]}
       _ _)).
  - exists "Elbow River below Glenmore Dam". reflexivity.
  - reflexivity.
Defined.

(** ** Publisher *)

Section PublisherFacts.

Variable upload_response : list api_call -> string -> list Byte.byte -> option string.
Variable status_response : list api_call -> string -> list string -> bool.

(** The calls made never depend on the answers, except that a failure
    stops them: the log grows by a prefix of the uploads, and by the post
    only after all of them. *)
Lemma upload_images_log (image_list : list (list Byte.byte * string))
      (media_list : list string) (log : list api_call) :
  match upload_images upload_response image_list media_list log with
  | (Ret _, log') => log' = (log ++ uploads image_list)%list
  | (Raise _, log') =>
      exists n : nat, (n <= length image_list)%nat /\
                      log' = (log ++ uploads (take n image_list))%list
  end.
Proof.
  revert media_list log.
  induction image_list as [|[image image_name] image_list IH]; intros media_list log.
  - simpl. by rewrite app_nil_r.
  - cbn [upload_images]. unfold mbind, M_bind, api_media_upload.
    destruct (upload_response log image_name image) as [response|].
    + specialize (IH (media_list ++ [response])%list
                     (log ++ [media_upload image_name image])%list).
      destruct (upload_images _ _ _ _) as [[ids|e] log'].
      * rewrite IH. unfold uploads. rewrite fmap_cons, <- app_assoc. reflexivity.
      * destruct IH as (n & Hn & ->). exists (S n). split; [simpl; lia|].
        unfold uploads. rewrite firstn_cons, fmap_cons, <- app_assoc. reflexivity.
    + exists 1%nat. split; [simpl; lia|].
      unfold uploads. rewrite firstn_cons, take_0. reflexivity.
Qed.

Hypothesis uploads_succeed :
  forall (log : list api_call) (filename : string) (file : list Byte.byte),
    is_Some (upload_response log filename file).

Lemma upload_images_spec (image_list : list (list Byte.byte * string))
      (media_list : list string) (log : list api_call) :
  exists ids : list string,
    upload_images upload_response image_list media_list log
    = (Ret (media_list ++ ids)%list, (log ++ uploads image_list)%list) /\
    length ids = length image_list /\
    forall (i : nat) (image : list Byte.byte) (image_name : string),
      image_list !! i = Some (image, image_name) ->
      ids !! i = upload_response (log ++ uploads (take i image_list))%list image_name image.
Proof.
  revert media_list log.
  induction image_list as [|[image image_name] image_list IH]; intros media_list log.
  - exists []. rewrite !app_nil_r. repeat split. intros i ? ? Hi. destruct i; discriminate.
  - cbn [upload_images]. unfold mbind, M_bind, api_media_upload.
    destruct (uploads_succeed log image_name image) as [response Hr]. rewrite Hr.
    destruct (IH (media_list ++ [response])%list (log ++ [media_upload image_name image])%list)
      as (ids & Hrun & Hlen & Hids).
    exists (response :: ids). rewrite Hrun. repeat split.
    + unfold uploads. rewrite fmap_cons, <- !app_assoc. reflexivity.
    + simpl. by rewrite Hlen.
    + intros [|i] img nm Hi; simpl in Hi.
      * injection Hi as <- <-. simpl. by rewrite app_nil_r.
      * change ((response :: ids) !! S i) with (ids !! i).
        rewrite (Hids i img nm Hi). unfold uploads.
        rewrite firstn_cons, fmap_cons, <- app_assoc. reflexivity.
Qed.

End PublisherFacts.

(** C9: when the API accepts the calls, [tweet_general_update] uploads the
    images in list order, keeps one media handle per image (the handle the
    API answered to that upload), and then makes exactly one post, with the
    summary text and all handles in the order of the images; nothing else is
    called. *)
Theorem tweet_general_update_calls
        (upload_response : list api_call -> string -> list Byte.byte -> option string)
        (status_response : list api_call -> string -> list string -> bool)
        (tweet_str : string) (image_list : list (list Byte.byte * string))
        (log : list api_call) :
  (forall (l : list api_call) (filename : string) (file : list Byte.byte),
      is_Some (upload_response l filename file)) ->
  (forall (l : list api_call) (status : string) (media_ids : list string),
      status_response l status media_ids = true) ->
  exists media_ids : list string,
    length media_ids = length image_list /\
    (forall (i : nat) (image : list Byte.byte) (image_name : string),
        image_list !! i = Some (image, image_name) ->
        media_ids !! i
        = upload_response (log ++ uploads (take i image_list))%list image_name image) /\
    tweet_general_update upload_response status_response tweet_str image_list log
    = (Ret tt, (log ++ uploads image_list ++ [update_status tweet_str media_ids])%list).
Proof.
  intros Hup Hst.
  destruct (upload_images_spec upload_response Hup image_list [] log) as (ids & Hrun & Hlen & Hids).
  exists ids. repeat split; [exact Hlen | exact Hids |].
  unfold tweet_general_update, mbind, M_bind. rewrite Hrun. cbn [app].
  unfold api_update_status. rewrite Hst, <- app_assoc. reflexivity.
Qed.

Lemma tweet_general_update_calls_witness :
  exists media_ids : list string,
    length media_ids = 2%nat /\
    tweet_general_update (fun l filename _ => Some ("id-" +:+ filename)) (fun _ _ _ => true)
                         "River Stats" [ ([], "flow.png"); ([], "level.png") ] []
    = (Ret tt, [ media_upload "flow.png" []; media_upload "level.png" [];
                 update_status "River Stats" media_ids ]).
Proof.
  destruct (tweet_general_update_calls
              (fun l filename _ => Some ("id-" +:+ filename)) (fun _ _ _ => true)
              "River Stats" [ ([], "flow.png"); ([], "level.png") ] [])
    as (media_ids & Hlen & _ & Hrun).
  - intros l filename file. eexists. reflexivity.
  - reflexivity.
  - exists media_ids. split; [exact Hlen | exact Hrun].
Defined.

(** ** Daily aggregation *)

(** A day without a valid reading (no row, or only NaN values) gets zero in
    every aggregated column. *)
Lemma reduce_no_valid (f : aggfunc) (xs : list float64) :
  Forall (fun x => isnan x = true) xs -> fillna0 (reduce f xs) = S754_zero false.
Proof.
  intros H. unfold reduce.
  replace (filter (fun x => isnan x = false) xs) with (@nil float64); [reflexivity|].
  induction H as [|x xs Hx _ IH]; [reflexivity|].
  rewrite filter_cons, decide_False by congruence. exact IH.
Qed.

Lemma daily_columns_no_valid (bin : list (Reading float64)) :
  Forall (fun r => isnan (level r) = true /\ isnan (flow r) = true) bin ->
  prod_map id fillna0 <$> daily_columns bin
  = [ ("level", S754_zero false); ("level_min", S754_zero false);
      ("level_max", S754_zero false); ("flow", S754_zero false) ].
Proof.
  intros H. unfold daily_columns. cbn [fmap list_fmap prod_map id fst snd].
  assert (Hl : Forall (fun x => isnan x = true) (level <$> bin)).
  { apply Forall_fmap. eapply Forall_impl; [exact H|]. cbn. tauto. }
  assert (Hf : Forall (fun x => isnan x = true) (flow <$> bin)).
  { apply Forall_fmap. eapply Forall_impl; [exact H|]. cbn. tauto. }
  rewrite !(reduce_no_valid _ _ Hl), (reduce_no_valid _ _ Hf). reflexivity.
Qed.

(** C3 (what the code does): two Elbow readings on 2020-06-15 with flows 10
    and 20 (levels 1 and 2) aggregate to one daily row whose columns are
    [level] (the mean 1.5), [level_min], [level_max] and [flow]; [flow] is
    the maximum 20, not the mean 15, and there is no [flow_min] or
    [flow_max] column: in the dictionary display of [AGGREGATE_COLUMNS] the
    key ["flow"] occurs three times and the last entry wins. *)
Theorem pull_station_aggregate_flow_collision :
  AGGREGATE_COLUMNS
  = [ ("level", np_mean); ("level_min", np_min); ("level_max", np_max); ("flow", np_max) ] /\
  exists (df : ref) (s' : store),
    pull_station (fun _ => None) (fun _ => None) "05BJ001" true 5000 (Some 1%positive)
                 {[ 1%positive := Raw elbow_two_readings ]}
    = (Ret (PyFrame df), s') /\
    s' !! df
    = Some (Daily [ (1592179200000000000,
                     [ ("level", decimal 15 1);
                       ("level_min", float_of_int 1);
                       ("level_max", float_of_int 2);
                       ("flow", float_of_int 20) ]) ]).
Proof.
  split; [reflexivity|].
  assert (Hst : is_Some (STATIONS !! "05BJ001")) by (eexists; reflexivity).
  assert (Hsrc : ({[ 1%positive := Raw elbow_two_readings ]} : store) !! 1%positive
                 = Some (Raw elbow_two_readings)) by reflexivity.
  rewrite (pull_station_from_table (fun _ => None) (fun _ => None) _ 5000 _ _ _ Hst Hsrc true).
  cbv zeta. do 2 eexists. split; [reflexivity|].
  rewrite lookup_insert_eq. vm_compute. reflexivity.
Qed.

(** ** SummaryFormatter *)

Lemma round_nan (decimals : Z) : round nan decimals = nan.
Proof.
  unfold round. destruct (decimals =? 0); [reflexivity|].
  destruct (0 <? decimals); reflexivity.
Qed.

Lemma append_assoc (a b c : string) : (a +:+ b) +:+ c = a +:+ (b +:+ c).
Proof.
  induction a as [|x a IH]; [reflexivity|].
  change (String x ((a +:+ b) +:+ c) = String x (a +:+ (b +:+ c))). by rewrite IH.
Qed.

(** On a float, of numpy or of Python, the classification is
    [status_symbol]. *)
Lemma first_below_number_float (v : number) (items : list (Z * string)) :
  (exists x, v = np_float64 x \/ v = py_float x) ->
  first_below_number v items = first_below (number_float v) items.
Proof.
  intros [x [-> | ->]]; induction items as [|[key value] items IH]; cbn; try reflexivity;
    rewrite IH; reflexivity.
Qed.

Lemma status_symbol_number_float (station : string) (x : float64) :
  status_symbol_number station (np_float64 x) = status_symbol station x /\
  status_symbol_number station (py_float x) = status_symbol station x.
Proof.
  unfold status_symbol_number, status_symbol.
  destruct (MARKER_LEVELS !! station) as [levels|]; [|done].
  rewrite !first_below_number_float by eauto. done.
Qed.

(** The summary is five lines, each ended by a newline. *)
Lemma gen_tweet_str_lines (bow elbow glenmore bow_c : Reading number) :
  gen_tweet_str bow elbow glenmore bow_c
  = String.concat newline
      [ "River Stats " +:+ strftime (name bow);
        "Bow Cochrane: "
          +:+ (if number_isnan (flow bow_c) then "N/A" else number_str (number_round (flow bow_c) 2))
          +:+ " m3/min, " +:+ number_str (number_round (level bow_c) 2) +:+ " m";
        "Bow YYC: "
          +:+ (if number_isnan (flow bow) then "N/A" else number_str (number_round (flow bow) 2))
          +:+ " m3/min, " +:+ number_str (number_round (level bow) 2) +:+ " m";
        "Elbow YYC: " +:+ status_symbol_number (station_number elbow) (flow elbow) +:+ ": "
          +:+ (if number_isnan (flow elbow) then "N/A" else number_str (number_round (flow elbow) 2))
          +:+ " m3/min, " +:+ number_str (number_round (level elbow) 2) +:+ " m";
        "Glenmore Resevoir: " +:+ number_str (number_round (level glenmore) 0) +:+ " m";
        "" ].
Proof.
  unfold gen_tweet_str. cbn [String.concat].
  destruct (number_isnan (flow bow_c)), (number_isnan (flow bow)), (number_isnan (flow elbow));
    cbn [negb]; rewrite ?append_assoc; reflexivity.
Qed.

(** C4 (counterexample): on the four readings with known values taken as
    rows of shaped tables (so the values are [numpy.float64]), Bow at
    Cochrane with flow 12.345 and level 1000.1 and Glenmore with level
    1048.6, the summary is not the text the specification expects: the
    Glenmore level is printed as the float 1049.0, so "1049 m" does not
    occur, and the Cochrane flow is printed as 12.34, not 12.35. *)
Lemma gen_tweet_str_known_values_counterexample :
  gen_tweet_str (np_row sample_bow) (np_row sample_elbow)
                (np_row sample_glenmore) (np_row sample_bow_c)
  = String.concat newline
      [ "River Stats 06/15/2020 14:30 PM";
        "Bow Cochrane: 12.34 m3/min, 1000.1 m";
        "Bow YYC: 98.75 m3/min, 1045.2 m";
        "Elbow YYC: 🟢: 10.5 m3/min, 1075.55 m";
        "Glenmore Resevoir: 1049.0 m";
        "" ] /\
  String.index 0 "1049 m"
               (gen_tweet_str (np_row sample_bow) (np_row sample_elbow)
                              (np_row sample_glenmore) (np_row sample_bow_c)) = None /\
  String.index 0 "Bow Cochrane: 12.35 m3/min, 1000.1 m"
               (gen_tweet_str (np_row sample_bow) (np_row sample_elbow)
                              (np_row sample_glenmore) (np_row sample_bow_c)) = None.
Proof. vm_compute. repeat split. Qed.

(** C4 (amended): for four readings whose flows are numbers
    ([numpy.float64], [numpy.int64] or Python floats), the summary is the
    five-line template with every flow and level passed through
    [round(., 2)] and the Glenmore level through [round(., 0)], each rounded
    as its type rounds and printed as [str] prints the result.  A Cochrane
    flow of 12.345 with level 1000.1 gives the line
    "Bow Cochrane: 12.35 m3/min, 1000.1 m" when the two are Python floats and
    "Bow Cochrane: 12.34 m3/min, 1000.1 m" when they are [numpy.float64]; a
    Glenmore level of 1048.6, a float of either kind, is printed "1049.0 m";
    an integer Glenmore level is printed without a fraction, 1049 as
    "1049 m". *)
Theorem gen_tweet_str_numeric (bow elbow glenmore bow_c : Reading number) :
  number_isnan (flow bow_c) = false ->
  number_isnan (flow bow) = false ->
  number_isnan (flow elbow) = false ->
  gen_tweet_str bow elbow glenmore bow_c
  = String.concat newline
      [ "River Stats " +:+ strftime (name bow);
        "Bow Cochrane: " +:+ number_str (number_round (flow bow_c) 2)
          +:+ " m3/min, " +:+ number_str (number_round (level bow_c) 2) +:+ " m";
        "Bow YYC: " +:+ number_str (number_round (flow bow) 2)
          +:+ " m3/min, " +:+ number_str (number_round (level bow) 2) +:+ " m";
        "Elbow YYC: " +:+ status_symbol_number (station_number elbow) (flow elbow) +:+ ": "
          +:+ number_str (number_round (flow elbow) 2)
          +:+ " m3/min, " +:+ number_str (number_round (level elbow) 2) +:+ " m";
        "Glenmore Resevoir: " +:+ number_str (number_round (level glenmore) 0) +:+ " m";
        "" ] /\
  (flow bow_c = py_float (decimal 12345 3) -> level bow_c = py_float (decimal 10001 1) ->
   "Bow Cochrane: " +:+ number_str (number_round (flow bow_c) 2)
     +:+ " m3/min, " +:+ number_str (number_round (level bow_c) 2) +:+ " m"
   = "Bow Cochrane: 12.35 m3/min, 1000.1 m") /\
  (flow bow_c = np_float64 (decimal 12345 3) -> level bow_c = np_float64 (decimal 10001 1) ->
   "Bow Cochrane: " +:+ number_str (number_round (flow bow_c) 2)
     +:+ " m3/min, " +:+ number_str (number_round (level bow_c) 2) +:+ " m"
   = "Bow Cochrane: 12.34 m3/min, 1000.1 m") /\
  (level glenmore = np_float64 (decimal 10486 1) \/ level glenmore = py_float (decimal 10486 1) ->
   "Glenmore Resevoir: " +:+ number_str (number_round (level glenmore) 0) +:+ " m"
   = "Glenmore Resevoir: 1049.0 m") /\
  (forall z : Z, level glenmore = np_int64 z ->
   "Glenmore Resevoir: " +:+ number_str (number_round (level glenmore) 0) +:+ " m"
   = "Glenmore Resevoir: " +:+ pretty z +:+ " m") /\
  (level glenmore = np_int64 1049 ->
   "Glenmore Resevoir: " +:+ number_str (number_round (level glenmore) 0) +:+ " m"
   = "Glenmore Resevoir: 1049 m").
Proof.
  intros Hc Hb He. repeat split.
  - rewrite gen_tweet_str_lines, Hc, Hb, He. reflexivity.
  - intros -> ->. vm_compute. reflexivity.
  - intros -> ->. vm_compute. reflexivity.
  - intros [-> | ->]; vm_compute; reflexivity.
  - intros z ->. reflexivity.
  - intros ->. vm_compute. reflexivity.
Qed.

Lemma gen_tweet_str_numeric_witness :
  gen_tweet_str (np_row sample_bow) (np_row sample_elbow)
                (np_row sample_glenmore) (np_row sample_bow_c)
  = String.concat newline
      [ "River Stats " +:+ strftime (name sample_bow);
        "Bow Cochrane: " +:+ float_str (round (flow sample_bow_c) 2)
          +:+ " m3/min, " +:+ float_str (round (level sample_bow_c) 2) +:+ " m";
        "Bow YYC: " +:+ float_str (round (flow sample_bow) 2)
          +:+ " m3/min, " +:+ float_str (round (level sample_bow) 2) +:+ " m";
        "Elbow YYC: " +:+ status_symbol (station_number sample_elbow) (flow sample_elbow) +:+ ": "
          +:+ float_str (round (flow sample_elbow) 2)
          +:+ " m3/min, " +:+ float_str (round (level sample_elbow) 2) +:+ " m";
        "Glenmore Resevoir: " +:+ float_str (round (level sample_glenmore) 0) +:+ " m";
        "" ].
Proof.
  refine (proj1 (gen_tweet_str_numeric (np_row sample_bow) (np_row sample_elbow)
                                       (np_row sample_glenmore) (np_row sample_bow_c) _ _ _));
    vm_compute; reflexivity.
Defined.

(** C5 (what the code does): with the Cochrane level missing (NaN) and
    every flow present, the missing level is printed "nan" and "N/A" occurs
    nowhere in the summary.  Only the three flows are guarded by
    [np.isnan]; the levels, in the same fields, are not. *)
Theorem gen_tweet_str_missing_level :
  gen_tweet_str (np_row sample_bow) (np_row sample_elbow)
                (np_row sample_glenmore) (np_row sample_bow_c_no_level)
  = String.concat newline
      [ "River Stats 06/15/2020 14:30 PM";
        "Bow Cochrane: 12.34 m3/min, nan m";
        "Bow YYC: 98.75 m3/min, 1045.2 m";
        "Elbow YYC: 🟢: 10.5 m3/min, 1075.55 m";
        "Glenmore Resevoir: 1049.0 m";
        "" ] /\
  String.index 0 "N/A"
               (gen_tweet_str (np_row sample_bow) (np_row sample_elbow)
                              (np_row sample_glenmore) (np_row sample_bow_c_no_level))
  = None /\
  gen_tweet_str (py_row sample_bow) (py_row sample_elbow)
                (py_row sample_glenmore) (py_row sample_bow_c_no_level)
  = String.concat newline
      [ "River Stats 06/15/2020 14:30 PM";
        "Bow Cochrane: 12.35 m3/min, nan m";
        "Bow YYC: 98.75 m3/min, 1045.2 m";
        "Elbow YYC: 🟢: 10.5 m3/min, 1075.55 m";
        "Glenmore Resevoir: 1049.0 m";
        "" ].
Proof. vm_compute. repeat split. Qed.

(** ** More on the classifier *)

Lemma flt_trans (x y z : float64) : flt x y = true -> flt y z = true -> flt x z = true.
Proof. intros H1 H2. apply (flt_fle_trans x y z H1). by apply flt_fle. Qed.

(** The only station with rules is 05BJ001, with the three thresholds. *)
Lemma MARKER_LEVELS_lookup (station : string) (levels : gmap string (list (Z * string))) :
  MARKER_LEVELS !! station = Some levels ->
  station = "05BJ001" /\
  levels !!! "flow" = [ (20, "🟢"); (35, "🟡"); (50, "🔴") ].
Proof.
  unfold MARKER_LEVELS. intros H. apply lookup_singleton_Some in H as [<- <-].
  split; reflexivity.
Qed.

(** On a station with rules the first two thresholds decide; the entry
    (50, Danger) never changes the result, which is Danger from 35 on and
    for NaN. *)
Lemma status_symbol_configured (station : string) (v : float64) :
  is_Some (MARKER_LEVELS !! station) ->
  status_symbol station v
  = if flt v (float_of_int 20) then "🟢" else if flt v (float_of_int 35) then "🟡" else "🔴".
Proof.
  intros [levels H]. unfold status_symbol. rewrite H.
  apply MARKER_LEVELS_lookup in H as [_ ->]. cbn [first_below].
  destruct (flt v (float_of_int 20)); [reflexivity|].
  destruct (flt v (float_of_int 35)); [reflexivity|].
  destruct (flt v (float_of_int 50)); reflexivity.
Qed.

(** [status_symbol] returns the empty string or one of the three markers,
    whatever the station and the flow. *)
Theorem status_symbol_range (station : string) (v : float64) :
  status_symbol station v = "" \/
  status_symbol station v = MARKERS !!! "Safe" \/
  status_symbol station v = MARKERS !!! "Warn" \/
  status_symbol station v = MARKERS !!! "Danger".
Proof.
  destruct (MARKER_LEVELS !! station) as [levels|] eqn:E.
  - rewrite status_symbol_configured by eauto.
    destruct (flt v (float_of_int 20)); [auto|].
    destruct (flt v (float_of_int 35)); auto.
  - left. unfold status_symbol. by rewrite E.
Qed.

(** On a station with rules, a flow is Safe exactly when it is below 20 and
    Danger exactly when it is not below 35 (NaN included): the threshold 50
    plays no part. *)
Theorem status_symbol_two_thresholds (station : string) (v : float64) :
  is_Some (MARKER_LEVELS !! station) ->
  (status_symbol station v = MARKERS !!! "Safe" <-> flt v (float_of_int 20) = true) /\
  (status_symbol station v = MARKERS !!! "Warn"
   <-> flt v (float_of_int 20) = false /\ flt v (float_of_int 35) = true) /\
  (status_symbol station v = MARKERS !!! "Danger" <-> flt v (float_of_int 35) = false).
Proof.
  intros H. rewrite (status_symbol_configured station v H).
  destruct (flt v (float_of_int 20)) eqn:E20.
  - rewrite (flt_trans _ _ _ E20 flt_20_35).
    repeat split; try discriminate; intros; try tauto; destruct_and?; discriminate.
  - destruct (flt v (float_of_int 35)) eqn:E35;
      repeat split; try discriminate; intros; try tauto; destruct_and?; discriminate.
Qed.

Lemma status_symbol_two_thresholds_witness :
  status_symbol "05BJ001" (decimal 42 0) = MARKERS !!! "Danger"
  <-> flt (decimal 42 0) (float_of_int 35) = false.
Proof.
  refine (proj2 (proj2 (status_symbol_two_thresholds "05BJ001" (decimal 42 0) _))).
  eexists. reflexivity.
Defined.

(** The classification is monotone in the flow: on a station with rules, a
    flow below a Safe flow is Safe, and a flow above a Danger flow is
    Danger. *)
Theorem status_symbol_monotone (station : string) (v1 v2 : float64) :
  is_Some (MARKER_LEVELS !! station) ->
  fle v1 v2 = true ->
  (status_symbol station v2 = MARKERS !!! "Safe" ->
   status_symbol station v1 = MARKERS !!! "Safe") /\
  (status_symbol station v1 = MARKERS !!! "Danger" ->
   status_symbol station v2 = MARKERS !!! "Danger").
Proof.
  intros H Hle. rewrite !(status_symbol_configured _ _ H). split.
  - destruct (flt v2 (float_of_int 20)) eqn:E2.
    + by rewrite (fle_flt_trans _ _ _ Hle E2).
    + destruct (flt v2 (float_of_int 35)); discriminate.
  - destruct (flt v2 (float_of_int 35)) eqn:E2.
    + rewrite (fle_flt_trans _ _ _ Hle E2).
      destruct (flt v1 (float_of_int 20)); discriminate.
    + destruct (flt v2 (float_of_int 20)) eqn:E20; [|reflexivity].
      rewrite (flt_trans _ _ _ E20 flt_20_35) in E2. discriminate.
Qed.

Lemma status_symbol_monotone_witness :
  status_symbol "05BJ001" (decimal 80 0) = MARKERS !!! "Danger".
Proof.
  refine (proj2 (status_symbol_monotone "05BJ001" (decimal 36 0) (decimal 80 0) _ _) _).
  - eexists. reflexivity.
  - reflexivity.
  - reflexivity.
Defined.
(** ** More on the shaper *)

Section ShaperMore.

Variable str_to_float : string -> option float64.
Variable read_json : string -> option (list (Reading cell)).

(** The run on a frame that is numeric already (the result of an earlier
    call): the rows are filtered, nothing is left to coerce. *)
Lemma pull_station_from_numeric
      (station : string) (limit : Z) (src : ref)
      (rows : list (Reading float64)) (s : store) :
  is_Some (STATIONS !! station) ->
  s !! src = Some (Numeric rows) ->
  pull_station str_to_float read_json station false limit (Some src) s
  = (Ret (PyFrame (fresh (dom s))),
     <[fresh (dom s) := Numeric (select_station station rows)]>
       (<[fresh (dom s) := Numeric (select_station station rows)]> s)).
Proof.
  intros Hst Hsrc.
  unfold pull_station. rewrite (configured_station _ Hst).
  unfold mbind, M_bind, mret, M_ret, alloc, load, write.
  rewrite Hsrc, lookup_insert_eq. reflexivity.
Qed.

Lemma select_station_coerce (station : string) (table : list (Reading cell)) :
  select_station station (coerce str_to_float <$> table)
  = coerce str_to_float <$> select_station station table.
Proof.
  unfold select_station. induction table as [|r table IH]; [reflexivity|].
  rewrite fmap_cons, !filter_cons. cbn [station_number coerce].
  destruct (decide (station_number r = station)); rewrite IH; reflexivity.
Qed.

Lemma select_station_idemp {C : Type} (station : string) (rows : list (Reading C)) :
  select_station station (select_station station rows) = select_station station rows.
Proof.
  unfold select_station. induction rows as [|r rows IH]; [reflexivity|].
  rewrite filter_cons. destruct (decide (station_number r = station)) as [E|E]; [|exact IH].
  rewrite filter_cons, decide_True by exact E. by rewrite IH.
Qed.

(** Every row of the shaped frame belongs to the requested station, and the
    rows are those of the table in their order: the index labels of the
    frame are a sublist of the index labels of the table. *)
Theorem pull_station_rows_of_station
        (station : string) (limit : Z) (src : ref)
        (table : list (Reading cell)) (s : store) :
  is_Some (STATIONS !! station) ->
  s !! src = Some (Raw table) ->
  exists (df : ref) (s' : store) (rows : list (Reading float64)),
    pull_station str_to_float read_json station false limit (Some src) s
    = (Ret (PyFrame df), s') /\
    s' !! df = Some (Numeric rows) /\
    Forall (fun r => station_number r = station) rows /\
    (name <$> rows) `sublist_of` (name <$> table) /\
    (forall r : Reading cell,
        r ∈ table -> station_number r = station -> coerce str_to_float r ∈ rows).
Proof.
  intros Hst Hsrc.
  rewrite (pull_station_from_table _ _ _ _ _ _ _ Hst Hsrc false).
  do 3 eexists. split; [reflexivity|]. split; [apply lookup_insert_eq|].
  repeat split.
  - apply Forall_fmap, Forall_forall. intros r Hr.
    apply list_elem_of_filter in Hr as [Hr _]. exact Hr.
  - rewrite <- list_fmap_compose.
    change (name ∘ coerce str_to_float) with (@name cell).
    apply fmap_sublist, sublist_filter.
  - intros r Hr E. apply list_elem_of_fmap. exists r. split; [reflexivity|].
    apply list_elem_of_filter. auto.
Qed.

(** Shaping a shaped frame again for the same station gives a new frame
    with the same rows: the first frame holds the coerced rows of the
    station after the first call and still after the second, which changes
    no frame that existed before it. *)
Theorem pull_station_twice
        (station : string) (limit : Z) (src : ref)
        (table : list (Reading cell)) (s : store) :
  is_Some (STATIONS !! station) ->
  s !! src = Some (Raw table) ->
  exists (df : ref) (s1 : store) (df' : ref) (s2 : store) (rows : list (Reading float64)),
    pull_station str_to_float read_json station false limit (Some src) s
    = (Ret (PyFrame df), s1) /\
    pull_station str_to_float read_json station false limit (Some df) s1
    = (Ret (PyFrame df'), s2) /\
    rows = coerce str_to_float <$> select_station station table /\
    s1 !! df = Some (Numeric rows) /\
    df' <> df /\
    s1 !! df' = None /\
    s2 !! df = Some (Numeric rows) /\
    s2 !! df' = Some (Numeric rows) /\
    extends s1 s2.
Proof.
  intros Hst Hsrc.
  set (df := fresh (dom s)).
  set (rows := coerce str_to_float <$> select_station station table).
  set (s1 := <[df := Numeric rows]> (<[df := Raw (select_station station table)]> s)).
  assert (H1 : s1 !! df = Some (Numeric rows)) by apply lookup_insert_eq.
  assert (Hne : fresh (dom s1) <> df).
  { intros E. apply (is_fresh (dom s1)). rewrite E. apply elem_of_dom. eauto. }
  assert (Hrows : select_station station rows = rows).
  { unfold rows. by rewrite select_station_coerce, select_station_idemp. }
  exists df, s1, (fresh (dom s1)),
    (<[fresh (dom s1) := Numeric rows]> (<[fresh (dom s1) := Numeric rows]> s1)), rows.
  split; [exact (pull_station_from_table _ _ _ _ _ _ _ Hst Hsrc false)|].
  split.
  { rewrite (pull_station_from_numeric _ _ _ _ _ Hst H1), Hrows. reflexivity. }
  split; [reflexivity|]. split; [exact H1|].
  split; [exact Hne|].
  assert (Hf : s1 !! fresh (dom s1) = None) by apply extends_fresh, extends_refl.
  split; [exact Hf|]. split; [|split].
  - rewrite !lookup_insert_ne by exact Hne. exact H1.
  - apply lookup_insert_eq.
  - apply extends_insert; [|exact Hf]. apply extends_insert; [apply extends_refl | exact Hf].
Qed.

(** A table without a row of the station gives an empty frame, not [False]
    and not an error. *)
Theorem pull_station_no_rows
        (station : string) (limit : Z) (src : ref)
        (table : list (Reading cell)) (s : store) :
  is_Some (STATIONS !! station) ->
  s !! src = Some (Raw table) ->
  Forall (fun r => station_number r <> station) table ->
  exists (df : ref) (s' : store),
    pull_station str_to_float read_json station false limit (Some src) s
    = (Ret (PyFrame df), s') /\
    s' !! df = Some (Numeric []).
Proof.
  intros Hst Hsrc Hnone.
  assert (E : select_station station table = []).
  { clear Hsrc. unfold select_station. induction Hnone as [|r table Hr _ IH]; [reflexivity|].
    rewrite filter_cons, decide_False by exact Hr. exact IH. }
  rewrite (pull_station_from_table _ _ _ _ _ _ _ Hst Hsrc false).
  do 2 eexists. split; [reflexivity|].
  rewrite lookup_insert_eq, E. reflexivity.
Qed.

(** When the download fails, [pull_station] raises and creates no frame. *)
Theorem pull_station_fetch_fails
        (station : string) (aggregate : bool) (limit : Z) (s : store) :
  is_Some (STATIONS !! station) ->
  read_json (RIVER_DATA_API_URL +:+ "?station_number=" +:+ station
               +:+ "&$order=timestamp%20DESC&$limit=" +:+ pretty limit) = None ->
  pull_station str_to_float read_json station aggregate limit None s = (Raise HTTPError, s).
Proof.
  intros Hst Hget. unfold pull_station. rewrite (configured_station _ Hst), Hget.
  reflexivity.
Qed.

End ShaperMore.
(** ** More on the daily aggregation *)

Lemma fle_refl (x : float64) : isnan x = false -> fle x x = true.
Proof.
  unfold fle, SFleb. destruct x as [[]|[]| |[] m e]; intros H; try discriminate;
    try reflexivity; simpl; rewrite Z.compare_refl, Pos.compare_cont_refl; reflexivity.
Qed.

Lemma fillna0_valid (x : float64) : isnan (fillna0 x) = false.
Proof. destruct x; reflexivity. Qed.

Lemma fillna0_id (x : float64) : isnan x = false -> fillna0 x = x.
Proof. destruct x; intros H; try discriminate; reflexivity. Qed.

(** Running minimum and maximum of valid values stay valid and ordered. *)
Lemma fold_fmin_fmax (vs : list float64) (lo hi : float64) :
  isnan lo = false -> isnan hi = false -> fle lo hi = true ->
  Forall (fun x => isnan x = false) vs ->
  isnan (fold_left fmin vs lo) = false /\
  isnan (fold_left fmax vs hi) = false /\
  fle (fold_left fmin vs lo) (fold_left fmax vs hi) = true.
Proof.
  intros Hlo Hhi Hle Hvs. revert lo hi Hlo Hhi Hle.
  induction Hvs as [|y vs Hy _ IH]; intros lo hi Hlo Hhi Hle; [by repeat split|].
  cbn [fold_left]. apply IH.
  - unfold fmin. by destruct (flt y lo).
  - unfold fmax. by destruct (flt hi y).
  - unfold fmin, fmax.
    destruct (flt y lo) eqn:E1, (flt hi y) eqn:E2.
    + by apply fle_refl.
    + apply flt_fle. exact (flt_fle_trans _ _ _ E1 Hle).
    + apply flt_fle. exact (fle_flt_trans _ _ _ Hle E2).
    + exact Hle.
Qed.

Lemma reduce_min_le_max (xs : list float64) :
  fle (fillna0 (reduce np_min xs)) (fillna0 (reduce np_max xs)) = true.
Proof.
  unfold reduce.
  destruct (filter (fun x => isnan x = false) xs) as [|v vs] eqn:E; [reflexivity|].
  assert (Hall : Forall (fun x => isnan x = false) (v :: vs)).
  { rewrite <- E. apply Forall_forall. intros x Hx.
    by apply list_elem_of_filter in Hx as [Hx _]. }
  apply Forall_cons in Hall as [Hv Hvs].
  destruct (fold_fmin_fmax vs v v Hv Hv (fle_refl v Hv) Hvs) as (H1 & H2 & H3).
  by rewrite !fillna0_id.
Qed.









(** Smallest and largest index label. *)
Lemma fold_min_spec (ts : list Z) (t : Z) :
  fold_left Z.min ts t ∈ t :: ts /\ forall x, x ∈ t :: ts -> fold_left Z.min ts t <= x.
Proof.
  revert t. induction ts as [|y ts IH]; intros t; cbn [fold_left].
  - split; [set_solver|]. intros x Hx. assert (x = t) by set_solver. lia.
  - destruct (IH (Z.min t y)) as [Hin Hle]. split.
    + apply elem_of_cons in Hin as [Hin|Hin]; [|set_solver].
      rewrite Hin. destruct (Z.min_spec t y) as [[_ ->]|[_ ->]]; set_solver.
    + intros x Hx.
      assert (Hm : fold_left Z.min ts (Z.min t y) <= Z.min t y) by (apply Hle; set_solver).
      assert (Hc : x = t \/ x = y \/ x ∈ ts) by set_solver.
      destruct Hc as [->|[->|Hc]]; [lia | lia | apply Hle; set_solver].
Qed.

Lemma fold_max_spec (ts : list Z) (t : Z) :
  fold_left Z.max ts t ∈ t :: ts /\ forall x, x ∈ t :: ts -> x <= fold_left Z.max ts t.
Proof.
  revert t. induction ts as [|y ts IH]; intros t; cbn [fold_left].
  - split; [set_solver|]. intros x Hx. assert (x = t) by set_solver. lia.
  - destruct (IH (Z.max t y)) as [Hin Hle]. split.
    + apply elem_of_cons in Hin as [Hin|Hin]; [|set_solver].
      rewrite Hin. destruct (Z.max_spec t y) as [[_ ->]|[_ ->]]; set_solver.
    + intros x Hx.
      assert (Hm : Z.max t y <= fold_left Z.max ts (Z.max t y)) by (apply Hle; set_solver).
      assert (Hc : x = t \/ x = y \/ x ∈ ts) by set_solver.
      destruct Hc as [->|[->|Hc]]; [lia | lia | apply Hle; set_solver].
Qed.

Lemma day_of_mono (t1 t2 : Timestamp) : t1 <= t2 -> day_of t1 <= day_of t2.
Proof. intros H. unfold day_of. apply Z.div_le_mono; [reflexivity | exact H]. Qed.

(** The bins of [resample_1D]: one per calendar day between two readings,
    no other, none twice, each holding the readings of its day. *)
Lemma resample_1D_bins (rows : list (Reading float64)) :
  NoDup ((resample_1D rows).*1) /\
  (forall (t : Timestamp) (bin : list (Reading float64)),
      (t, bin) ∈ resample_1D rows ->
      exists d : Z,
        t = d * ns_per_day /\
        bin = filter (fun r => day_of (name r) = d) rows /\
        exists r1 r2 : Reading float64,
          r1 ∈ rows /\ r2 ∈ rows /\ day_of (name r1) <= d <= day_of (name r2)) /\
  (forall (r1 r2 : Reading float64) (d : Z),
      r1 ∈ rows -> r2 ∈ rows -> day_of (name r1) <= d <= day_of (name r2) ->
      (d * ns_per_day, filter (fun r => day_of (name r) = d) rows) ∈ resample_1D rows).
Proof.
  destruct rows as [|r0 rows0].
  { split; [constructor|]. split.
    - intros ? ? H. inversion H.
    - intros r1 ? ? H1. inversion H1. }
  unfold resample_1D. rewrite fmap_cons.
  destruct (fold_min_spec (name <$> rows0) (name r0)) as [Hmin_in Hmin].
  destruct (fold_max_spec (name <$> rows0) (name r0)) as [Hmax_in Hmax].
  change (name r0 :: (name <$> rows0)) with (name <$> (r0 :: rows0)) in Hmin_in, Hmin, Hmax_in, Hmax.
  set (lo := fold_left Z.min (name <$> rows0) (name r0)) in *.
  set (hi := fold_left Z.max (name <$> rows0) (name r0)) in *.
  set (rows := r0 :: rows0) in *.
  split; [|split].
  - rewrite <- list_fmap_compose.
    apply NoDup_fmap_2_strong; [|apply NoDup_seqZ].
    intros d1 d2 _ _ H. cbn in H. unfold ns_per_day, ns_per_second in H. lia.
  - intros t0 bin H. apply list_elem_of_fmap in H as (d & [= -> ->] & Hd).
    apply elem_of_seqZ in Hd. exists d. repeat split.
    apply list_elem_of_fmap in Hmin_in as (r1 & E1 & Hr1).
    apply list_elem_of_fmap in Hmax_in as (r2 & E2 & Hr2).
    exists r1, r2. rewrite <- E1, <- E2. repeat split; auto; lia.
  - intros r1 r2 d Hr1 Hr2 [Hd1 Hd2].
    apply list_elem_of_fmap. exists d. split; [reflexivity|].
    apply elem_of_seqZ.
    assert (lo <= name r1) by (apply Hmin, list_elem_of_fmap_2, Hr1).
    assert (name r2 <= hi) by (apply Hmax, list_elem_of_fmap_2, Hr2).
    pose proof (day_of_mono _ _ H). pose proof (day_of_mono _ _ H0). lia.
Qed.

Section DailyFrame.

Variable str_to_float : string -> option float64.
Variable read_json : string -> option (list (Reading cell)).

(** The aggregated frame of a table, and its rows. *)
Lemma pull_station_aggregated
      (station : string) (limit : Z) (src : ref)
      (table : list (Reading cell)) (s : store) :
  is_Some (STATIONS !! station) ->
  s !! src = Some (Raw table) ->
  exists (df : ref) (s' : store) (days : list (Timestamp * list (string * float64))),
    pull_station str_to_float read_json station true limit (Some src) s
    = (Ret (PyFrame df), s') /\
    s' !! df = Some (Daily days) /\
    forall (t : Timestamp) (cols : list (string * float64)),
      (t, cols) ∈ days <->
      exists bin : list (Reading float64),
        (t, bin) ∈ resample_1D (coerce str_to_float <$> select_station station table) /\
        cols = prod_map id fillna0 <$> daily_columns bin.
Proof.
  intros Hst Hsrc.
  rewrite (pull_station_from_table _ _ _ _ _ _ _ Hst Hsrc true). cbv zeta.
  do 3 eexists. split; [reflexivity|]. split; [apply lookup_insert_eq|].
  intros t cols. rewrite list_elem_of_fmap. split.
  - intros ([t' bin] & [= -> ->] & Hbin). exists bin. auto.
  - intros (bin & Hbin & ->). exists (t, bin). auto.
Qed.


(** The daily frame has one row for each calendar day from the day of the
    first reading to the day of the last one, days without a reading
    included, and no row for any other day; no day occurs twice. *)
Theorem pull_station_daily_index
        (station : string) (limit : Z) (src : ref)
        (table : list (Reading cell)) (s : store) :
  is_Some (STATIONS !! station) ->
  s !! src = Some (Raw table) ->
  exists (df : ref) (s' : store) (days : list (Timestamp * list (string * float64))),
    pull_station str_to_float read_json station true limit (Some src) s
    = (Ret (PyFrame df), s') /\
    s' !! df = Some (Daily days) /\
    NoDup (days.*1) /\
    (forall t : Timestamp,
        t ∈ days.*1 <->
        exists (d : Z) (r1 r2 : Reading cell),
          t = d * ns_per_day /\
          r1 ∈ select_station station table /\
          r2 ∈ select_station station table /\
          day_of (name r1) <= d <= day_of (name r2)).
Proof.
  intros Hst Hsrc.
  rewrite (pull_station_from_table _ _ _ _ _ _ _ Hst Hsrc true). cbv zeta.
  set (rows := coerce str_to_float <$> select_station station table).
  destruct (resample_1D_bins rows) as (Hnodup & Honly & Hall).
  do 3 eexists. split; [reflexivity|]. split; [apply lookup_insert_eq|].
  rewrite <- list_fmap_compose.
  change (fst ∘ _) with (@fst Timestamp (list (Reading float64))).
  split; [exact Hnodup|].
  intros t. rewrite list_elem_of_fmap. split.
  - intros ([t' bin] & -> & Hbin). cbn [fst].
    apply Honly in Hbin as (d & -> & _ & r1 & r2 & H1 & H2 & Hd).
    apply list_elem_of_fmap in H1 as (c1 & -> & H1).
    apply list_elem_of_fmap in H2 as (c2 & -> & H2).
    exists d, c1, c2. auto.
  - intros (d & c1 & c2 & -> & H1 & H2 & Hd).
    eexists (_, _). split; [reflexivity|].
    apply (Hall (coerce str_to_float c1) (coerce str_to_float c2) d);
      [by apply list_elem_of_fmap_2 | by apply list_elem_of_fmap_2 | exact Hd].
Qed.

(** No value of the daily frame is NaN, and in every row [level_min] is at
    most [level_max]. *)
Theorem pull_station_daily_valid
        (station : string) (limit : Z) (src : ref)
        (table : list (Reading cell)) (s : store) :
  is_Some (STATIONS !! station) ->
  s !! src = Some (Raw table) ->
  exists (df : ref) (s' : store) (days : list (Timestamp * list (string * float64))),
    pull_station str_to_float read_json station true limit (Some src) s
    = (Ret (PyFrame df), s') /\
    s' !! df = Some (Daily days) /\
    forall (t : Timestamp) (cols : list (string * float64)),
      (t, cols) ∈ days ->
      (forall (c : string) (x : float64), (c, x) ∈ cols -> isnan x = false) /\
      exists lo hi : float64,
        dict_get cols "level_min" = Some lo /\
        dict_get cols "level_max" = Some hi /\
        fle lo hi = true.
Proof.
  intros Hst Hsrc.
  destruct (pull_station_aggregated station limit src table s Hst Hsrc)
    as (df & s' & days & Hrun & Hdf & Hdays).
  exists df, s', days. split; [exact Hrun|]. split; [exact Hdf|].
  intros t cols Hin. apply Hdays in Hin as (bin & _ & ->). split.
  - intros c x Hx. apply list_elem_of_fmap in Hx as ([c' x'] & [= -> ->] & _).
    apply fillna0_valid.
  - do 2 eexists. split; [reflexivity|]. split; [reflexivity|].
    apply reduce_min_le_max.
Qed.

End DailyFrame.

(** ** More on the publisher *)

Section PublisherMore.

Variable upload_response : list api_call -> string -> list Byte.byte -> option string.
Variable status_response : list api_call -> string -> list string -> bool.

Lemma upload_images_outcomes (image_list : list (list Byte.byte * string))
      (media_list : list string) (log : list api_call) :
  match upload_images upload_response image_list media_list log with
  | (Ret media_list', log') =>
      exists ids : list string,
        media_list' = (media_list ++ ids)%list /\
        length ids = length image_list /\
        log' = (log ++ uploads image_list)%list
  | (Raise e, log') =>
      e = TweepError /\
      exists n : nat, (n < length image_list)%nat /\
                      log' = (log ++ uploads (take (S n) image_list))%list
  end.
Proof.
  revert media_list log.
  induction image_list as [|[image image_name] image_list IH]; intros media_list log.
  - exists []. by rewrite !app_nil_r.
  - cbn [upload_images]. unfold mbind, M_bind, api_media_upload.
    destruct (upload_response log image_name image) as [response|].
    + specialize (IH (media_list ++ [response])%list
                     (log ++ [media_upload image_name image])%list).
      destruct (upload_images _ _ _ _) as [[ids'|e] log'].
      * destruct IH as (ids & -> & Hlen & ->). exists (response :: ids).
        rewrite <- !app_assoc. repeat split. simpl. by rewrite Hlen.
      * destruct IH as (-> & n & Hn & ->). split; [reflexivity|].
        exists (S n). split; [simpl; lia|].
        rewrite <- app_assoc. reflexivity.
    + split; [reflexivity|]. exists 0%nat. split; [simpl; lia|]. reflexivity.
Qed.

(** Whatever the API answers, [tweet_general_update] only appends to the
    call log.  It returns after uploading every image, in order, and posting
    once.  It raises ([TweepError]) either at the first refused upload,
    having made no later upload and no post, or at a refused post. *)
Theorem tweet_general_update_outcomes
        (tweet_str : string) (image_list : list (list Byte.byte * string))
        (log : list api_call) :
  match tweet_general_update upload_response status_response tweet_str image_list log with
  | (Ret _, log') =>
      exists media_ids : list string,
        length media_ids = length image_list /\
        log' = (log ++ uploads image_list ++ [update_status tweet_str media_ids])%list
  | (Raise e, log') =>
      e = TweepError /\
      ((exists n : nat, (n < length image_list)%nat /\
                        log' = (log ++ uploads (take (S n) image_list))%list) \/
       (exists media_ids : list string,
           length media_ids = length image_list /\
           log' = (log ++ uploads image_list ++ [update_status tweet_str media_ids])%list))
  end.
Proof.
  unfold tweet_general_update, mbind, M_bind.
  pose proof (upload_images_outcomes image_list [] log) as H.
  destruct (upload_images _ _ _ _) as [[ids'|e] log'].
  - destruct H as (ids & -> & Hlen & ->). cbn [app]. unfold api_update_status.
    destruct (status_response _ _ _); rewrite <- app_assoc.
    + exists ids. auto.
    + split; [reflexivity|]. right. exists ids. auto.
  - destruct H as (-> & n & Hn & ->). split; [reflexivity|]. left. eauto.
Qed.

End PublisherMore.

(** ** More on the summary *)

(** When the flow of the Elbow reading is missing and its station has
    threshold rules, the Elbow line shows the Danger marker next to "N/A",
    whatever the other values and their types are. *)
Theorem gen_tweet_str_elbow_missing_flow (bow elbow glenmore bow_c : Reading number) :
  is_Some (MARKER_LEVELS !! station_number elbow) ->
  number_isnan (flow elbow) = true ->
  gen_tweet_str bow elbow glenmore bow_c
  = String.concat newline
      [ "River Stats " +:+ strftime (name bow);
        "Bow Cochrane: "
          +:+ (if number_isnan (flow bow_c) then "N/A"
               else number_str (number_round (flow bow_c) 2))
          +:+ " m3/min, " +:+ number_str (number_round (level bow_c) 2) +:+ " m";
        "Bow YYC: "
          +:+ (if number_isnan (flow bow) then "N/A"
               else number_str (number_round (flow bow) 2))
          +:+ " m3/min, " +:+ number_str (number_round (level bow) 2) +:+ " m";
        "Elbow YYC: 🔴: N/A m3/min, " +:+ number_str (number_round (level elbow) 2) +:+ " m";
        "Glenmore Resevoir: " +:+ number_str (number_round (level glenmore) 0) +:+ " m";
        "" ].
Proof.
  intros Hst Hnan. rewrite gen_tweet_str_lines, Hnan.
  assert (status_symbol_number (station_number elbow) (flow elbow) = "🔴") as ->; [|reflexivity].
  destruct (flow elbow) as [x|z|x]; try discriminate; cbn in Hnan;
    destruct x; try discriminate;
    rewrite ?(proj1 (status_symbol_number_float _ _)), ?(proj2 (status_symbol_number_float _ _));
    rewrite (status_symbol_configured _ _ Hst); reflexivity.
Qed.

(** ** Credentials *)

(** [pull_environment_variables] leaves the module's four keys as they
    were, so that [tweepy_auth] afterwards still builds the API from the
    keys of the [keys] module.  It returns [True] exactly when the three
    variables read through [os.environ] are set, and otherwise raises
    [KeyError] for one that is missing; a missing CRB_CONSUMER_KEY, read
    through [os.getenv], never makes it raise. *)
Theorem pull_environment_variables_effect (environ : gmap string string) (globals : keys) :
  (pull_environment_variables environ globals).2 = globals /\
  (tweepy_auth (pull_environment_variables environ globals).2).1
  = Ret (mkAPI (CONSUMER_KEY globals) (CONSUMER_SECRET globals)
               (ACCESS_TOKEN globals) (ACCESS_TOKEN_SECRET globals)) /\
  ((pull_environment_variables environ globals).1 = Ret true <->
   is_Some (environ !! "CRB_CONSUMER_SECRET") /\
   is_Some (environ !! "CRB_ACCESS_TOKEN") /\
   is_Some (environ !! "CRB_ACCESS_TOKEN_SECRET")) /\
  (forall e : exn,
      (pull_environment_variables environ globals).1 = Raise e ->
      exists key : string,
        e = KeyError key /\ environ !! key = None /\
        key ∈ ["CRB_CONSUMER_SECRET"; "CRB_ACCESS_TOKEN"; "CRB_ACCESS_TOKEN_SECRET"]).
Proof.
  unfold pull_environment_variables.
  destruct (environ !! "CRB_CONSUMER_SECRET") as [a|] eqn:E1.
  - destruct (environ !! "CRB_ACCESS_TOKEN") as [b|] eqn:E2.
    + destruct (environ !! "CRB_ACCESS_TOKEN_SECRET") as [c|] eqn:E3; cbn [fst snd].
      * repeat split; eauto. intros e H. discriminate.
      * repeat split; try discriminate.
        -- intros (_ & _ & [? H]). discriminate.
        -- intros e [= <-]. exists "CRB_ACCESS_TOKEN_SECRET". repeat split; [exact E3 | set_solver].
    + cbn [fst snd]. repeat split; try discriminate.
      * intros (_ & [? H] & _). discriminate.
      * intros e [= <-]. exists "CRB_ACCESS_TOKEN". repeat split; [exact E2 | set_solver].
  - cbn [fst snd]. repeat split; try discriminate.
    + intros ([? H] & _). discriminate.
    + intros e [= <-]. exists "CRB_CONSUMER_SECRET". repeat split; [exact E1 | set_solver].
Qed.

(** ** Charts *)

Section ChartFacts.

Variable savefig : option string -> option string -> list artist -> list Byte.byte.
Variable lineplot_error : string -> string -> string -> list ChartRow -> option error.
Variable savefig_None : error.

Hypothesis lineplot_draws :
  forall (x y hue : string) (df : list ChartRow), lineplot_error x y hue df = None.

(** A chart asked as a buffer: the figure drawn so far gets the lines and
    the decoration, is encoded, and is closed; no file is written. *)
Lemma plot_chart_buffer (df : list ChartRow) (x_str y_str hue_str : string)
      (file_name : option string) (w : world) :
  plot_chart savefig lineplot_error savefig_None df x_str y_str hue_str file_name true w
  = (Done (PlotBuffer (savefig None (seaborn_style w)
                               (figure w ++ chart_artists x_str y_str hue_str df))),
     mkWorld (frames w) (seaborn_style w) [] (files w) (twitter w)).
Proof.
  unfold plot_chart, sns_lineplot. rewrite lineplot_draws.
  unfold mbind, P_bind, mret, P_ret, draw, plt_close. cbn.
  rewrite <- !app_assoc. reflexivity.
Qed.

(** A chart asked as a file: one file is added, under the given name. *)
Lemma plot_chart_file (df : list ChartRow) (x_str y_str hue_str path : string) (w : world) :
  plot_chart savefig lineplot_error savefig_None df x_str y_str hue_str (Some path) false w
  = (Done PlotTrue,
     mkWorld (frames w) (seaborn_style w) []
             (files w ++ [(path, savefig (Some path) (seaborn_style w)
                                         (figure w ++ chart_artists x_str y_str hue_str df))])
             (twitter w)).
Proof.
  unfold plot_chart, sns_lineplot. rewrite lineplot_draws.
  unfold mbind, P_bind, mret, P_ret, draw, plt_close. cbn.
  rewrite <- !app_assoc. reflexivity.
Qed.

Lemma P_bind_eq {A B : Type} (m : P A) (k : A -> P B) (w : world) :
  (m ≫= k) w
  = match m w with
    | (Done a, w') => k a w'
    | (Failed e, w') => (Failed e, w')
    end.
Proof. reflexivity. Qed.

Lemma frame_rows_shaped (w : world) (v : pyvalue) (rows : list (Reading float64)) :
  shaped_frame w v rows -> frame_rows v w = (Done rows, w).
Proof.
  intros (r & -> & Hr). destruct w as [fr st fig fl tw]. cbn in Hr.
  unfold frame_rows, mbind, P_bind, on_frames, load. cbn. rewrite Hr. reflexivity.
Qed.

Lemma mapM_cons_P {A B : Type} (f : A -> P B) (x : A) (l : list A) (w : world) :
  mapM f (x :: l) w
  = match f x w with
    | (Done y, w') =>
        match mapM f l w' with
        | (Done k, w'') => (Done (y :: k), w'')
        | (Failed e, w'') => (Failed e, w'')
        end
    | (Failed e, w') => (Failed e, w')
    end.
Proof. reflexivity. Qed.

Lemma mapM_frame_rows (w : world) (dfs : list pyvalue) (tables : list (list (Reading float64))) :
  Forall2 (shaped_frame w) dfs tables -> mapM frame_rows dfs w = (Done tables, w).
Proof.
  induction 1 as [|v rows dfs tables Hv _ IH]; [reflexivity|].
  rewrite mapM_cons_P, (frame_rows_shaped _ _ _ Hv), IH. reflexivity.
Qed.

Lemma pd_concat_shaped (w : world) (dfs : list pyvalue) (tables : list (list (Reading float64))) :
  dfs <> [] ->
  Forall2 (shaped_frame w) dfs tables ->
  pd_concat dfs w = (Done (concat tables), w).
Proof.
  intros Hne H. unfold pd_concat. destruct dfs as [|v dfs]; [congruence|].
  rewrite P_bind_eq, (mapM_frame_rows _ _ _ H). reflexivity.
Qed.

(** The run of [gen_charts] on two non-empty lists of shaped frames. *)
Lemma gen_charts_run
      (df_flow_list df_level_list : list pyvalue)
      (flow_tables level_tables : list (list (Reading float64))) (w : world) :
  df_flow_list <> [] ->
  df_level_list <> [] ->
  Forall2 (shaped_frame w) df_flow_list flow_tables ->
  Forall2 (shaped_frame w) df_level_list level_tables ->
  gen_charts savefig lineplot_error savefig_None df_flow_list df_level_list w
  = (Done (PlotBuffer (savefig None (Some "darkgrid")
                               (figure w ++ chart_artists "Date" "Flow (m3/s)" "Location"
                                             (chart_table (concat level_tables)))),
           PlotBuffer (savefig None (Some "darkgrid")
                               (chart_artists "Date" "Level (m)" "Location"
                                              (chart_table (concat level_tables))))),
     mkWorld (frames w) (Some "darkgrid") [] (files w) (twitter w)).
Proof.
  intros Hf Hl Hflow Hlevel. unfold gen_charts.
  rewrite P_bind_eq, (pd_concat_shaped _ _ _ Hf Hflow).
  rewrite P_bind_eq, (pd_concat_shaped _ _ _ Hl Hlevel).
  cbn [fmap list_fmap List.last]. rewrite P_bind_eq. unfold sns_set.
  rewrite P_bind_eq, plot_chart_buffer. cbn [seaborn_style figure frames files twitter].
  rewrite P_bind_eq, plot_chart_buffer. reflexivity.
Qed.

(** [gen_charts] on two non-empty lists of shaped frames returns two
    buffers, and both charts show the rows of [df_level_list], the flow
    chart too: the rows of [df_flow_list] are concatenated and never
    plotted, so any other such list gives the same result.  The flow chart
    is drawn onto whatever the current figure holds, the level chart onto a
    new figure.  No file is written, no data frame changes, and the figure
    is closed at the end. *)
Theorem gen_charts_plots_level_list
        (df_flow_list df_level_list : list pyvalue)
        (flow_tables level_tables : list (list (Reading float64))) (w : world) :
  df_flow_list <> [] ->
  df_level_list <> [] ->
  Forall2 (shaped_frame w) df_flow_list flow_tables ->
  Forall2 (shaped_frame w) df_level_list level_tables ->
  gen_charts savefig lineplot_error savefig_None df_flow_list df_level_list w
  = (Done (PlotBuffer (savefig None (Some "darkgrid")
                               (figure w ++ chart_artists "Date" "Flow (m3/s)" "Location"
                                             (chart_table (concat level_tables)))),
           PlotBuffer (savefig None (Some "darkgrid")
                               (chart_artists "Date" "Level (m)" "Location"
                                              (chart_table (concat level_tables))))),
     mkWorld (frames w) (Some "darkgrid") [] (files w) (twitter w)) /\
  forall (other_list : list pyvalue) (other_tables : list (list (Reading float64))),
    other_list <> [] ->
    Forall2 (shaped_frame w) other_list other_tables ->
    gen_charts savefig lineplot_error savefig_None other_list df_level_list w
    = gen_charts savefig lineplot_error savefig_None df_flow_list df_level_list w.
Proof.
  intros Hf Hl Hflow Hlevel. split.
  - exact (gen_charts_run _ _ _ _ _ Hf Hl Hflow Hlevel).
  - intros other_list other_tables Ho Hother.
    rewrite (gen_charts_run _ _ _ _ _ Hf Hl Hflow Hlevel).
    exact (gen_charts_run _ _ _ _ _ Ho Hl Hother Hlevel).
Qed.

(** [gen_charts] refuses an empty list of frames ([pd.concat] raises
    [ValueError]) before anything is drawn. *)
Theorem gen_charts_empty_list
        (df_flow_list df_level_list : list pyvalue)
        (flow_tables : list (list (Reading float64))) (w : world) :
  gen_charts savefig lineplot_error savefig_None [] df_level_list w = (Failed ValueError, w) /\
  (Forall2 (shaped_frame w) df_flow_list flow_tables ->
   gen_charts savefig lineplot_error savefig_None df_flow_list [] w = (Failed ValueError, w)).
Proof.
  split; [reflexivity|]. intros Hflow.
  unfold gen_charts.
  destruct df_flow_list as [|v dfs]; [reflexivity|].
  assert (Hne : v :: dfs <> []) by discriminate.
  rewrite P_bind_eq, (pd_concat_shaped _ _ _ Hne Hflow). reflexivity.
Qed.

End ChartFacts.

(** Every configured station has a short name for the chart legend: a
    reading whose [station_name] is the display name of a station in
    [STATIONS] is plotted under the short name [STATION_NAME_MAP] gives
    it; a reading with any other name keeps its name. *)
Theorem chart_row_location (r : Reading float64) :
  (forall station : string,
      STATIONS !! station = Some (station_name r) ->
      STATION_NAME_MAP !! station_name r = Some (Location (chart_row r))) /\
  (STATION_NAME_MAP !! station_name r = None -> Location (chart_row r) = station_name r).
Proof.
  split.
  - intros station H. unfold chart_row. cbn [Location].
    unfold STATIONS in H.
    repeat (apply lookup_insert_Some in H as [[_ <-]|[_ H]]; [reflexivity|]).
    apply lookup_singleton_Some in H as [_ <-]. reflexivity.
  - intros H. unfold chart_row. cbn [Location]. rewrite H. reflexivity.
Qed.

(** ** The whole process *)

Lemma fresh_insert_other (s : store) (r : ref) (d x y : DataFrame) :
  s !! r = Some d ->
  (<[fresh (dom s) := x]> (<[fresh (dom s) := y]> s)) !! r = Some d.
Proof.
  intros H.
  assert (fresh (dom s) <> r).
  { intros E. apply (is_fresh (dom s)). rewrite E. apply elem_of_dom. eauto. }
  by rewrite !lookup_insert_ne.
Qed.

Lemma extends_shaped (s s' : store) (x y : DataFrame) :
  extends s s' ->
  extends s (<[fresh (dom s') := x]> (<[fresh (dom s') := y]> s')).
Proof.
  intros H. pose proof (extends_fresh _ _ H) as Hf.
  apply extends_insert; [|exact Hf]. apply extends_insert; [exact H | exact Hf].
Qed.

Section ProcessFacts.

Variable str_to_float : string -> option float64.
Variable read_json : string -> option (list (Reading cell)).
Variable upload_response : list api_call -> string -> list Byte.byte -> option string.
Variable status_response : list api_call -> string -> list string -> bool.
Variable savefig : option string -> option string -> list artist -> list Byte.byte.
Variable lineplot_error : string -> string -> string -> list ChartRow -> option error.
Variable savefig_None : error.

Lemma run_pull_all_recent_stations (w : world) (aggregate : bool) (limit : Z)
      (table : list (Reading cell)) :
  read_json (RIVER_DATA_API_URL +:+ "?$limit=" +:+ pretty limit) = Some table ->
  on_frames (pull_all_recent_stations read_json aggregate limit) w
  = (Done (fresh (dom (frames w))),
     mkWorld (<[fresh (dom (frames w)) := Raw table]> (frames w))
             (seaborn_style w) (figure w) (files w) (twitter w)).
Proof.
  intros H. unfold on_frames, pull_all_recent_stations. rewrite H. reflexivity.
Qed.

Lemma run_pull_station (w : world) (station : string) (limit : Z) (src : ref)
      (table : list (Reading cell)) :
  is_Some (STATIONS !! station) ->
  frames w !! src = Some (Raw table) ->
  on_frames (pull_station str_to_float read_json station false limit (Some src)) w
  = (Done (PyFrame (fresh (dom (frames w)))),
     mkWorld (<[fresh (dom (frames w)) :=
                  Numeric (coerce str_to_float <$> select_station station table)]>
                (<[fresh (dom (frames w)) := Raw (select_station station table)]> (frames w)))
             (seaborn_style w) (figure w) (files w) (twitter w)).
Proof.
  intros Hst Hsrc. unfold on_frames.
  rewrite (pull_station_from_table _ _ _ _ _ _ _ Hst Hsrc false). reflexivity.
Qed.

Lemma run_iloc0 (s : store) (st : option string) (fig : list artist)
      (fl : list (string * list Byte.byte)) (tw : list api_call)
      (r : ref) (rows : list (Reading float64)) :
  s !! r = Some (Numeric rows) ->
  iloc0 (PyFrame r) (mkWorld s st fig fl tw)
  = match rows with
    | row :: _ => (Done row, mkWorld s st fig fl tw)
    | [] => (Failed IndexError, mkWorld s st fig fl tw)
    end.
Proof.
  intros H. unfold iloc0. rewrite P_bind_eq. unfold on_frames, load. cbn. rewrite H.
  destruct rows; reflexivity.
Qed.

(** The four stations of the summary are configured. *)
Lemma main_stations :
  is_Some (STATIONS !! "05BJ008") /\ is_Some (STATIONS !! "05BH004") /\
  is_Some (STATIONS !! "05BJ001") /\ is_Some (STATIONS !! "05BH005").
Proof. repeat split; eexists; reflexivity. Qed.

(** The run of [main] up to the four shaped frames: afterwards the store
    holds them under four references, and nothing else of the world has
    changed. *)
Ltac main_prefix w table Hfeed :=
  destruct w as [s st fig fl tw];
  destruct main_stations as (Hg & Hb & He & Hc);
  unfold main;
  rewrite P_bind_eq, (run_pull_all_recent_stations _ _ _ _ Hfeed);
  cbn [frames seaborn_style figure files twitter];
  set (d0 := fresh (dom s));
  set (s0 := <[d0 := Raw table]> s);
  assert (H0 : s0 !! d0 = Some (Raw table)) by apply lookup_insert_eq;
  rewrite P_bind_eq, (run_pull_station (mkWorld s0 st fig fl tw) _ _ _ _ Hg H0);
  cbn [frames seaborn_style figure files twitter];
  set (g := fresh (dom s0));
  set (s1 := <[g := Numeric (coerce str_to_float <$> select_station "05BJ008" table)]> _);
  assert (H1 : s1 !! d0 = Some (Raw table)) by (by apply fresh_insert_other);
  assert (G1 : s1 !! g = Some (Numeric (coerce str_to_float <$> select_station "05BJ008" table)))
    by apply lookup_insert_eq;
  rewrite P_bind_eq, (run_pull_station (mkWorld s1 st fig fl tw) _ _ _ _ Hb H1);
  cbn [frames seaborn_style figure files twitter];
  set (b := fresh (dom s1));
  set (s2 := <[b := Numeric (coerce str_to_float <$> select_station "05BH004" table)]> _);
  assert (H2 : s2 !! d0 = Some (Raw table)) by (by apply fresh_insert_other);
  assert (G2 : s2 !! g = Some (Numeric (coerce str_to_float <$> select_station "05BJ008" table)))
    by (by apply fresh_insert_other);
  assert (B2 : s2 !! b = Some (Numeric (coerce str_to_float <$> select_station "05BH004" table)))
    by apply lookup_insert_eq;
  rewrite P_bind_eq, (run_pull_station (mkWorld s2 st fig fl tw) _ _ _ _ He H2);
  cbn [frames seaborn_style figure files twitter];
  set (e := fresh (dom s2));
  set (s3 := <[e := Numeric (coerce str_to_float <$> select_station "05BJ001" table)]> _);
  assert (H3 : s3 !! d0 = Some (Raw table)) by (by apply fresh_insert_other);
  assert (G3 : s3 !! g = Some (Numeric (coerce str_to_float <$> select_station "05BJ008" table)))
    by (by apply fresh_insert_other);
  assert (B3 : s3 !! b = Some (Numeric (coerce str_to_float <$> select_station "05BH004" table)))
    by (by apply fresh_insert_other);
  assert (E3 : s3 !! e = Some (Numeric (coerce str_to_float <$> select_station "05BJ001" table)))
    by apply lookup_insert_eq;
  rewrite P_bind_eq, (run_pull_station (mkWorld s3 st fig fl tw) _ _ _ _ Hc H3);
  cbn [frames seaborn_style figure files twitter];
  set (c := fresh (dom s3));
  set (s4 := <[c := Numeric (coerce str_to_float <$> select_station "05BH005" table)]> _);
  assert (G4 : s4 !! g = Some (Numeric (coerce str_to_float <$> select_station "05BJ008" table)))
    by (by apply fresh_insert_other);
  assert (B4 : s4 !! b = Some (Numeric (coerce str_to_float <$> select_station "05BH004" table)))
    by (by apply fresh_insert_other);
  assert (E4 : s4 !! e = Some (Numeric (coerce str_to_float <$> select_station "05BJ001" table)))
    by (by apply fresh_insert_other);
  assert (C4 : s4 !! c = Some (Numeric (coerce str_to_float <$> select_station "05BH005" table)))
    by apply lookup_insert_eq;
  assert (Hext : extends s s4)
    by (do 4 apply extends_shaped; apply extends_insert;
        [apply extends_refl | apply extends_fresh, extends_refl]);
  rewrite P_bind_eq, (run_iloc0 _ _ _ _ _ _ _ B4);
  clearbody s4 g b e c; clear H0 H1 H2 H3 G1 G2 G3 B2 B3 E3.

(** When the bulk download fails, [main] raises before anything else
    happens: no frame, no chart, no call to Twitter. *)
Theorem main_download_fails (w : world) :
  read_json (RIVER_DATA_API_URL +:+ "?$limit=" +:+ pretty 20000) = None ->
  main str_to_float read_json upload_response status_response
       savefig lineplot_error savefig_None w
  = (Failed (Exn HTTPError), w).
Proof.
  intros H. destruct w as [s st fig fl tw].
  unfold main. rewrite P_bind_eq. unfold on_frames, pull_all_recent_stations.
  rewrite H. reflexivity.
Qed.

(** When the download has no row for one of the four stations of the
    summary, [main] raises [IndexError] (at [.iloc[0]]); nothing is drawn,
    no file is written and Twitter is not called. *)
Theorem main_station_without_row (w : world) (table : list (Reading cell)) :
  read_json (RIVER_DATA_API_URL +:+ "?$limit=" +:+ pretty 20000) = Some table ->
  select_station "05BJ008" table = [] \/ select_station "05BH004" table = [] \/
  select_station "05BJ001" table = [] \/ select_station "05BH005" table = [] ->
  exists w' : world,
    main str_to_float read_json upload_response status_response
         savefig lineplot_error savefig_None w
    = (Failed IndexError, w') /\
    twitter w' = twitter w /\
    files w' = files w /\
    figure w' = figure w /\
    seaborn_style w' = seaborn_style w /\
    extends (frames w) (frames w').
Proof.
  intros Hfeed Hmissing.
  main_prefix w table Hfeed.
  destruct (select_station "05BH004" table) as [|rb tb];
    [eexists; split; [reflexivity|]; by repeat split|].
  cbn [fmap list_fmap]. rewrite P_bind_eq, (run_iloc0 _ _ _ _ _ _ _ E4).
  destruct (select_station "05BJ001" table) as [|re te];
    [eexists; split; [reflexivity|]; by repeat split|].
  cbn [fmap list_fmap]. rewrite P_bind_eq, (run_iloc0 _ _ _ _ _ _ _ G4).
  destruct (select_station "05BJ008" table) as [|rg tg];
    [eexists; split; [reflexivity|]; by repeat split|].
  cbn [fmap list_fmap]. rewrite P_bind_eq, (run_iloc0 _ _ _ _ _ _ _ C4).
  destruct (select_station "05BH005" table) as [|rc tc];
    [eexists; split; [reflexivity|]; by repeat split|].
  exfalso. destruct Hmissing as [H|[H|[H|H]]]; discriminate.
Qed.


End ProcessFacts.

(** ** Instances *)

Lemma pull_station_rows_of_station_witness :
  exists (df : ref) (s' : store) (rows : list (Reading float64)),
    pull_station (fun _ => None) (fun _ => None) "05BJ001" false 5000 (Some 1%positive)
                 {[ 1%positive := Raw sample_feed ]}
    = (Ret (PyFrame df), s') /\
    s' !! df = Some (Numeric rows) /\
    Forall (fun r => station_number r = "05BJ001") rows.
Proof.
  destruct (pull_station_rows_of_station (fun _ => None) (fun _ => None) "05BJ001" 5000
              1%positive sample_feed {[ 1%positive := Raw sample_feed ]})
    as (df & s' & rows & Hrun & Hdf & Hall & _).
  - eexists. reflexivity.
  - reflexivity.
  - exists df, s', rows. auto.
Defined.

Lemma pull_station_twice_witness :
  exists (df : ref) (s1 : store) (df' : ref) (s2 : store) (rows : list (Reading float64)),
    pull_station (fun _ => None) (fun _ => None) "05BJ001" false 5000 (Some 1%positive)
                 {[ 1%positive := Raw sample_feed ]}
    = (Ret (PyFrame df), s1) /\
    pull_station (fun _ => None) (fun _ => None) "05BJ001" false 5000 (Some df) s1
    = (Ret (PyFrame df'), s2) /\
    rows = coerce (fun _ => None) <$> select_station "05BJ001" sample_feed /\
    s1 !! df = Some (Numeric rows) /\
    df' <> df /\
    s1 !! df' = None /\
    s2 !! df = Some (Numeric rows) /\
    s2 !! df' = Some (Numeric rows) /\
    extends s1 s2.
Proof.
  apply (pull_station_twice (fun _ => None) (fun _ => None) "05BJ001" 5000
           1%positive sample_feed {[ 1%positive := Raw sample_feed ]}).
  - eexists. reflexivity.
  - reflexivity.
Defined.

Lemma pull_station_no_rows_witness :
  exists (df : ref) (s' : store),
    pull_station (fun _ => None) (fun _ => None) "05BJ004" false 5000 (Some 1%positive)
                 {[ 1%positive := Raw sample_feed ]}
    = (Ret (PyFrame df), s') /\
    s' !! df = Some (Numeric []).
Proof.
  apply (pull_station_no_rows (fun _ => None) (fun _ => None) "05BJ004" 5000
           1%positive sample_feed {[ 1%positive := Raw sample_feed ]}).
  - eexists. reflexivity.
  - reflexivity.
  - repeat constructor; discriminate.
Defined.

Lemma pull_station_fetch_fails_witness :
  pull_station (fun _ => None) (fun _ => None) "05BJ001" false 5000 None ∅
  = (Raise HTTPError, ∅).
Proof.
  apply (pull_station_fetch_fails (fun _ => None) (fun _ => None) "05BJ001" false 5000 ∅).
  - eexists. reflexivity.
  - reflexivity.
Defined.


Lemma pull_station_daily_index_witness :
  exists (df : ref) (s' : store) (days : list (Timestamp * list (string * float64))),
    pull_station (fun _ => None) (fun _ => None) "05BJ001" true 5000 (Some 1%positive)
                 {[ 1%positive := Raw elbow_two_readings ]}
    = (Ret (PyFrame df), s') /\
    s' !! df = Some (Daily days) /\
    NoDup (days.*1).
Proof.
  destruct (pull_station_daily_index (fun _ => None) (fun _ => None) "05BJ001" 5000
              1%positive elbow_two_readings {[ 1%positive := Raw elbow_two_readings ]})
    as (df & s' & days & Hrun & Hdf & Hnodup & _).
  - eexists. reflexivity.
  - reflexivity.
  - exists df, s', days. auto.
Defined.

Lemma pull_station_daily_valid_witness :
  exists (df : ref) (s' : store) (days : list (Timestamp * list (string * float64))),
    pull_station (fun _ => None) (fun _ => None) "05BJ001" true 5000 (Some 1%positive)
                 {[ 1%positive := Raw elbow_two_readings ]}
    = (Ret (PyFrame df), s') /\
    s' !! df = Some (Daily days) /\
    forall (t : Timestamp) (cols : list (string * float64)),
      (t, cols) ∈ days ->
      forall (c : string) (x : float64), (c, x) ∈ cols -> isnan x = false.
Proof.
  destruct (pull_station_daily_valid (fun _ => None) (fun _ => None) "05BJ001" 5000
              1%positive elbow_two_readings {[ 1%positive := Raw elbow_two_readings ]})
    as (df & s' & days & Hrun & Hdf & Hvalid).
  - eexists. reflexivity.
  - reflexivity.
  - exists df, s', days. repeat split; auto. intros t cols Hin. apply (Hvalid t cols Hin).
Defined.

Lemma gen_tweet_str_elbow_missing_flow_witness :
  gen_tweet_str (np_row sample_bow)
                (mkReading 1592231400000000000 "05BJ001" "Elbow River below Glenmore Dam"
                           (np_int64 1075) (np_float64 nan) [])
                (mkReading 1592231400000000000 "05BJ008" "Glenmore Reservoir at Calgary"
                           (np_int64 1048) (np_int64 1) [])
                (py_row sample_bow_c)
  = String.concat newline
      [ "River Stats 06/15/2020 14:30 PM";
        "Bow Cochrane: 12.35 m3/min, 1000.1 m";
        "Bow YYC: 98.75 m3/min, 1045.2 m";
        "Elbow YYC: 🔴: N/A m3/min, 1075 m";
        "Glenmore Resevoir: 1048 m";
        "" ].
Proof.
  rewrite (gen_tweet_str_elbow_missing_flow (np_row sample_bow) _ _ (py_row sample_bow_c)).
  - vm_compute. reflexivity.
  - eexists. reflexivity.
  - reflexivity.
Defined.

Lemma gen_charts_plots_level_list_witness :
  gen_charts (fun _ _ _ => []) (fun _ _ _ _ => None) ValueError
             [PyFrame 1%positive] [PyFrame 2%positive]
             (mkWorld {[ 1%positive := Numeric [sample_bow]; 2%positive := Numeric [sample_elbow] ]}
                      None [] [] [])
  = (Done (PlotBuffer [], PlotBuffer []),
     mkWorld {[ 1%positive := Numeric [sample_bow]; 2%positive := Numeric [sample_elbow] ]}
             (Some "darkgrid") [] [] []).
Proof.
  refine (proj1 (gen_charts_plots_level_list
                   (fun _ _ _ => []) (fun _ _ _ _ => None) ValueError _
                   [PyFrame 1%positive] [PyFrame 2%positive] [[sample_bow]] [[sample_elbow]]
                   (mkWorld {[ 1%positive := Numeric [sample_bow];
                               2%positive := Numeric [sample_elbow] ]} None [] [] [])
                   _ _ _ _)).
  - reflexivity.
  - discriminate.
  - discriminate.
  - repeat constructor. exists 1%positive. split; reflexivity.
  - repeat constructor. exists 2%positive. split; reflexivity.
Defined.

Lemma main_download_fails_witness :
  main (fun _ => None) (fun _ => None) (fun _ _ _ => None) (fun _ _ _ => true)
       (fun _ _ _ => []) (fun _ _ _ _ => None) ValueError initial_world
  = (Failed (Exn HTTPError), initial_world).
Proof.
  apply (main_download_fails (fun _ => None) (fun _ => None) (fun _ _ _ => None)
           (fun _ _ _ => true) (fun _ _ _ => []) (fun _ _ _ _ => None) ValueError initial_world).
  reflexivity.
Defined.

Lemma main_station_without_row_witness :
  exists w' : world,
    main (fun _ => None) (fun _ => Some elbow_two_readings) (fun _ _ _ => None)
         (fun _ _ _ => true) (fun _ _ _ => []) (fun _ _ _ _ => None) ValueError initial_world
    = (Failed IndexError, w') /\
    twitter w' = [].
Proof.
  destruct (main_station_without_row (fun _ => None) (fun _ => Some elbow_two_readings)
              (fun _ _ _ => None) (fun _ _ _ => true) (fun _ _ _ => [])
              (fun _ _ _ _ => None) ValueError initial_world elbow_two_readings)
    as (w' & Hrun & Htw & _).
  - reflexivity.
  - left. reflexivity.
  - exists w'. auto.
Defined.

